(** * Telemetry fusion and polling of the drone dashboard

    A shallow embedding of the telemetry pipeline of the dashboard:

    - [src/services/dynamodb.ts]: [getLatestTelemetry] (scan, sort, keep the
      latest record of each type) and [transformMavlinkToTelemetry] (fusion of
      the retained records into one telemetry object);
    - [src/services/api.ts] (and its Lambda-proxy variant): [getLatestTelemetry]
      over HTTP;
    - [src/hooks/useDynamoDB.ts] (both the API-backed and the DynamoDB-backed
      hook): the body of [pollTelemetry].

    JavaScript numbers are modelled as rationals extended with NaN and the two
    infinities; the rounding of IEEE doubles and the sign of zero are outside
    the model. The wall clock ([Date.now()]) is an explicit argument. *)

From Stdlib Require Import ZArith QArith Qminmax Qround Qabs Lia Lqa.
From Stdlib Require Import DecimalString DecimalPos DecimalZ.
From Stdlib Require Import String Ascii Sorted Permutation.
From stdpp Require Import base option list strings gmap.

Set Warnings "-register-all".
Local Open Scope Z_scope.

(** ** JavaScript values and coercions *)

Module Js.

(** Numbers. *)
Inductive JsNum : Type :=
  | NaN
  | NegInf
  | Fin (q : Q)
  | PosInf.

(** Scalar values: what a DynamoDB attribute of scalar type unmarshals to,
    plus [undefined] for an absent property. *)
Inductive JsVal : Type :=
  | JUndefined
  | JNull
  | JBool (b : bool)
  | JNum (n : JsNum)
  | JStr (s : string).

(** Structured values: object literals, parsed JSON, and the members an
    object literal inherits from [Object.prototype] (functions, or the
    prototype object itself). *)
Inductive Value : Type :=
  | VScalar (v : JsVal)
  | VArray (elems : list Value)
  | VObject (props : list (string * Value))
  | VNative (name : string).

Definition undefined : Value := VScalar JUndefined.
Definition null : Value := VScalar JNull.
Definition num (q : Q) : Value := VScalar (JNum (Fin q)).
Definition str (s : string) : Value := VScalar (JStr s).

(** Does a string contain a character? *)
Fixpoint mentions (c : ascii) (s : string) : bool :=
  match s with
  | EmptyString => false
  | String d rest => Ascii.eqb c d || mentions c rest
  end.

(** The decimal numeral of an integer: what [String(n)] prints for an
    integer below 2^53 in magnitude, and the digits [toFixed] writes. *)
Definition decimal (z : Z) : string := NilZero.string_of_int (Z.to_int z).

(** The parts of the host that are not modelled digit by digit. *)
Class Host : Type := {
  (** [Number(s)] for a string [s] *)
  StringToNumber : string -> JsNum;
  (** the global [parseFloat] on a string *)
  parseFloat : string -> JsNum;
  (** [JSON.parse(s)]; [None] when it throws a [SyntaxError] *)
  JSON_parse : string -> option Value;
  (** [String(x)] for a finite [x] that is not an integer below 2^53 in
      magnitude: a rendering with a fraction or an exponent, or, for an
      integer from 2^53 up to 10^21, at most 17 significant digits followed
      by zeros *)
  fracToString : Q -> string;
  (** such a rendering starts with a digit or a minus sign, and it has a
      decimal point or an exponent or is the numeral of an integer of
      magnitude 2^53 or more *)
  fracToString_shape : forall q,
    exists c s, fracToString q = String c s /\
                (c = "-"%char \/ (48 <= nat_of_ascii c <= 57)%nat) /\
                (mentions "."%char s || mentions "e"%char s = true
                 \/ exists z, 2 ^ 53 <= Z.abs z /\ String c s = decimal z)
}.

(** Same number (the identity of a JavaScript number is its numeric value). *)
Definition num_eq (a b : JsNum) : Prop :=
  match a, b with
  | NaN, NaN => True
  | NegInf, NegInf => True
  | PosInf, PosInf => True
  | Fin p, Fin q => (p == q)%Q
  | _, _ => False
  end.

(** [a === b] on numbers: NaN differs from itself. *)
Definition num_eqb (a b : JsNum) : bool :=
  match a, b with
  | NegInf, NegInf => true
  | PosInf, PosInf => true
  | Fin p, Fin q => Qeq_bool p q
  | _, _ => false
  end.

Definition num_ltb (a b : JsNum) : bool :=
  match a, b with
  | NaN, _ | _, NaN => false
  | NegInf, NegInf => false
  | NegInf, _ => true
  | _, NegInf => false
  | PosInf, _ => false
  | Fin _, PosInf => true
  | Fin p, Fin q => negb (Qle_bool q p)
  end.

(** [Math.max] and [Math.min] of two numbers. *)
Definition max2 (a b : JsNum) : JsNum :=
  match a, b with
  | NaN, _ | _, NaN => NaN
  | _, _ => if num_ltb a b then b else a
  end.

Definition min2 (a b : JsNum) : JsNum :=
  match a, b with
  | NaN, _ | _, NaN => NaN
  | _, _ => if num_ltb b a then b else a
  end.

(** [Math.max(...xs)]: the maximum of no numbers is -Infinity. *)
Definition Math_max (xs : list JsNum) : JsNum := foldr max2 NegInf xs.

(** [a - b], [a * b], [a / b]; [sign] is [Gt] for a positive number. *)
Definition sub (a b : JsNum) : JsNum :=
  match a, b with
  | NaN, _ | _, NaN => NaN
  | PosInf, PosInf | NegInf, NegInf => NaN
  | PosInf, _ | _, NegInf => PosInf
  | NegInf, _ | _, PosInf => NegInf
  | Fin p, Fin q => Fin (p - q)
  end.

Definition sign (a : JsNum) : comparison :=
  match a with
  | NaN => Eq
  | NegInf => Lt
  | PosInf => Gt
  | Fin q => (q ?= 0)%Q
  end.

Definition signed_inf (s t : comparison) : JsNum :=
  match s, t with
  | Eq, _ | _, Eq => NaN
  | Lt, Lt | Gt, Gt => PosInf
  | _, _ => NegInf
  end.

Definition mul (a b : JsNum) : JsNum :=
  match a, b with
  | NaN, _ | _, NaN => NaN
  | Fin p, Fin q => Fin (p * q)
  | _, _ => signed_inf (sign a) (sign b)
  end.

Definition div (a b : JsNum) : JsNum :=
  match a, b with
  | NaN, _ | _, NaN => NaN
  | Fin p, Fin q =>
      if Qeq_bool q 0 then signed_inf (sign a) Gt else Fin (p / q)
  | Fin _, _ => Fin 0
  | _, Fin q =>
      if Qeq_bool q 0 then a else signed_inf (sign a) (sign b)
  | _, _ => NaN
  end.

(** An integer below 2^53 in magnitude: every such integer is a double, and
    [String] prints it digit for digit. *)
Definition is_small_integer (q : Q) : bool :=
  let r := Qred q in
  Pos.eqb (Qden r) 1 && Z.ltb (Z.abs (Qnum r)) (2 ^ 53).

Section Coercions.
Context `{Host}.

Definition NumberToString (n : JsNum) : string :=
  match n with
  | NaN => "NaN"
  | NegInf => "-Infinity"
  | PosInf => "Infinity"
  | Fin q => if is_small_integer q then decimal (Qnum (Qred q))
             else fracToString (Qred q)
  end.

Definition ToBoolean (v : JsVal) : bool :=
  match v with
  | JUndefined | JNull => false
  | JBool b => b
  | JNum NaN => false
  | JNum (Fin q) => negb (Qeq_bool q 0)
  | JNum _ => true
  | JStr s => negb (String.eqb s "")
  end.

Definition ToNumber (v : JsVal) : JsNum :=
  match v with
  | JUndefined => NaN
  | JNull => Fin 0
  | JBool b => if b then Fin 1 else Fin 0
  | JNum n => n
  | JStr s => StringToNumber s
  end.

Definition ToString (v : JsVal) : string :=
  match v with
  | JUndefined => "undefined"
  | JNull => "null"
  | JBool b => if b then "true" else "false"
  | JNum n => NumberToString n
  | JStr s => s
  end.

End Coercions.

(** [a || b] and [a ?? b]. *)
Definition or (a b : JsVal) : JsVal := if ToBoolean a then a else b.

Definition nullish (a b : JsVal) : JsVal :=
  match a with
  | JUndefined | JNull => b
  | _ => a
  end.

(** [a === b] on scalars. *)
Definition strict_eq (a b : JsVal) : bool :=
  match a, b with
  | JUndefined, JUndefined => true
  | JNull, JNull => true
  | JBool x, JBool y => Bool.eqb x y
  | JNum x, JNum y => num_eqb x y
  | JStr x, JStr y => String.eqb x y
  | _, _ => false
  end.

(** SameValueZero, the key equality of [Map]. *)
Definition same_value_zero (a b : JsVal) : bool :=
  match a, b with
  | JNum NaN, JNum NaN => true
  | _, _ => strict_eq a b
  end.

(** Truthiness of a structured value. *)
Definition truthy (v : Value) : bool :=
  match v with
  | VScalar s => ToBoolean s
  | _ => true
  end.

(** Own property of an object literal; a later binding of a key wins. *)
Fixpoint own (props : list (string * Value)) (k : string) : option Value :=
  match props with
  | [] => None
  | (k', v) :: rest =>
      match own rest k with
      | Some w => Some w
      | None => if String.eqb k k' then Some v else None
      end
  end.

(** The property names every object literal inherits from
    [Object.prototype]. *)
Definition inherited : list string :=
  ["constructor"; "__defineGetter__"; "__defineSetter__"; "hasOwnProperty";
   "__lookupGetter__"; "__lookupSetter__"; "isPrototypeOf";
   "propertyIsEnumerable"; "toString"; "valueOf"; "__proto__";
   "toLocaleString"]%string.

(** [o[k]] on an object literal. *)
Definition get_object (props : list (string * Value)) (k : string) : Value :=
  match own props k with
  | Some v => v
  | None => if existsb (String.eqb k) inherited then VNative k else undefined
  end.

End Js.

(** ** Promises and exceptions *)

Module Async.

(** What a [throw] or a rejected promise carries: an [Error] with its
    message, or something that is not an [Error]. *)
Inductive Thrown : Type :=
  | ErrorObject (message : string)
  | NonError.

(** How an awaited call ends. *)
Inductive Completion (A : Type) : Type :=
  | Fulfilled (a : A)
  | Rejected (e : Thrown).
Arguments Fulfilled {A} a.
Arguments Rejected {A} e.

Definition bind {A B} (k : A -> Completion B) (c : Completion A) : Completion B :=
  match c with
  | Fulfilled a => k a
  | Rejected e => Rejected e
  end.

(** [try { body } catch (error) { handler }] *)
Definition try_catch {A} (body : Completion A) (handler : Thrown -> Completion A)
  : Completion A :=
  match body with
  | Fulfilled a => Fulfilled a
  | Rejected e => handler e
  end.

#[export] Instance completion_bind : MBind Completion := @bind.

End Async.

(** ** [src/services/dynamodb.ts] *)

Module Dynamo.
Import Js Async.

(** A scanned record: its top-level attributes and its [data] payload, both
    free-form maps of scalar attributes. *)
Record Item : Type := {
  attrs : gmap string JsVal;
  data : option (gmap string JsVal)
}.

Definition field (o : gmap string JsVal) (k : string) : JsVal :=
  default JUndefined (o !! k).

(** [item.k] and [item.data?.k] *)
Definition attr (item : Item) (k : string) : JsVal := field (attrs item) k.

Definition data_field (item : Item) (k : string) : JsVal :=
  match data item with
  | Some d => field d k
  | None => JUndefined
  end.

(** [d?.k] for the payload found (or not) for a type *)
Definition opt_field (d : option (gmap string JsVal)) (k : string) : JsVal :=
  match d with
  | Some o => field o k
  | None => JUndefined
  end.

(** [item.data?.timestamp || item.timestamp || 0] *)
Definition effective_timestamp (item : Item) : JsVal :=
  or (or (data_field item "timestamp") (attr item "timestamp")) (JNum (Fin 0)).

Section WithHost.
Context `{Host}.

(** *** getLatestTelemetry *)

(** The comparator of the sort: [bTime - aTime]. *)
Definition compare_items (a b : Item) : JsNum :=
  sub (ToNumber (effective_timestamp b)) (ToNumber (effective_timestamp a)).

(** [Array.prototype.sort] is stable: an element moves behind another one only
    when the comparator is positive. *)
Fixpoint insert_sorted (a : Item) (sorted : list Item) : list Item :=
  match sorted with
  | [] => [a]
  | b :: rest =>
      if num_ltb (Fin 0) (compare_items a b)
      then b :: insert_sorted a rest
      else a :: b :: rest
  end.

Definition sort (items : list Item) : list Item := foldr insert_sorted [] items.

(** [(item.data || item).type || 'unknown'] *)
Definition type_of (item : Item) : JsVal :=
  let itemType :=
    match data item with
    | Some d => field d "type"
    | None => attr item "type"
    end in
  or itemType (JStr "unknown").

(** The [Map] of the latest record per type, in insertion order. *)
Definition has (m : list (JsVal * Item)) (k : JsVal) : bool :=
  existsb (fun e => same_value_zero e.1 k) m.

Definition set_new (m : list (JsVal * Item)) (k : JsVal) (item : Item)
  : list (JsVal * Item) := m ++ [(k, item)].

Definition values (m : list (JsVal * Item)) : list Item := map snd m.

(** The [for ... of] loop over the sorted records, with its [break]. *)
Fixpoint group (sorted : list Item) (latestByType : list (JsVal * Item))
  : list (JsVal * Item) :=
  match sorted with
  | [] => latestByType
  | item :: rest =>
      let type := type_of item in
      let latestByType :=
        if has latestByType type then latestByType
        else set_new latestByType type item in
      if has latestByType (JStr "battery")
         && has latestByType (JStr "altitude")
         && has latestByType (JStr "state")
      then latestByType
      else group rest latestByType
  end.

(** What [dynamoClient.send(new ScanCommand(...))] does: it rejects, or it
    resolves with a result whose [Items] may be missing. *)
Inductive ScanOutcome : Type :=
  | ScanFailed (e : Thrown)
  | ScanResult (Items : option (list Item)).

Definition send (o : ScanOutcome) : Completion (option (list Item)) :=
  match o with
  | ScanFailed e => Rejected e
  | ScanResult Items => Fulfilled Items
  end.

(** The records kept from a non-empty scan. *)
Definition latest_of_each_type (Items : list Item) : list Item :=
  values (group (sort Items) []).

Definition getLatestTelemetry (o : ScanOutcome) : Completion (list Item) :=
  try_catch
    (Items ← send o;
     match Items with
     | Some (i :: rest) => Fulfilled (latest_of_each_type (i :: rest))
     | _ => Fulfilled []
     end)
    (fun error => Fulfilled []).

(** *** transformMavlinkToTelemetry *)

(** [items.find(item => item.data?.type === type)?.data] *)
Definition data_of_type (items : list Item) (type : string)
  : option (gmap string JsVal) :=
  match List.find (fun item => strict_eq (data_field item "type") (JStr type)) items with
  | Some item => data item
  | None => None
  end.

Definition modeMap : list (string * Value) :=
  [("0", str "STABILIZE"); ("1", str "ACRO"); ("2", str "ALT_HOLD");
   ("3", str "AUTO"); ("4", str "GUIDED"); ("5", str "LOITER");
   ("6", str "RTL"); ("7", str "CIRCLE"); ("8", str "LAND");
   ("9", str "OF_LOITER"); ("10", str "TAKEOFF")]%string.

(** [Math.max(0, Math.min(100, x))] *)
Definition clamp_percent (x : JsNum) : JsNum :=
  max2 (Fin 0) (min2 (Fin 100) x).

(** [typeof x === 'string' ? parseFloat(x) : x] *)
Definition to_altitude (x : JsVal) : JsVal :=
  match x with
  | JStr s => JNum (parseFloat s)
  | _ => x
  end.

Definition is_undefined (v : JsVal) : bool :=
  match v with JUndefined => true | _ => false end.

(** The local constants of [transformMavlinkToTelemetry], one definition
    each. *)

(** [Math.max(...timestamps, Date.now())] *)
Definition latestTimestamp (items : list Item) (now : Z) : JsNum :=
  let timestamps := map effective_timestamp items in
  Math_max (map ToNumber timestamps ++ [Fin (inject_Z now)]).

Definition batteryPercent (batteryData : option (gmap string JsVal)) : JsVal :=
  let batteryRemaining := opt_field batteryData "remaining" in
  let batteryVoltage := opt_field batteryData "voltage" in
  if negb (is_undefined batteryRemaining) then batteryRemaining
  else if ToBoolean batteryVoltage
       then JNum (clamp_percent
                    (mul (div (sub (ToNumber batteryVoltage) (Fin 12))
                              (Fin (42 # 10)))
                         (Fin 100)))
       else JNum (Fin 100).

Definition altitude (altitudeData : option (gmap string JsVal)) : JsVal :=
  let relativeAlt := opt_field altitudeData "relative" in
  let amslAlt := opt_field altitudeData "amsl" in
  if negb (is_undefined relativeAlt) then to_altitude relativeAlt
  else if negb (is_undefined amslAlt) then to_altitude amslAlt
       else JNum (Fin 0).

(** [modeMap[mode] || `MODE_${mode}`] *)
Definition flightMode (mode : JsVal) : Value :=
  let named := get_object modeMap (ToString mode) in
  if truthy named then named else str ("MODE_" +:+ ToString mode).

(** [`drone-${items[0]?.sysid || 1}`] *)
Definition droneId (items : list Item) : string :=
  let sysid :=
    match items with
    | item :: _ => attr item "sysid"
    | [] => JUndefined
    end in
  "drone-" +:+ ToString (or sysid (JNum (Fin 1))).

Definition transformMavlinkToTelemetry (items : list Item) (now : Z) : Value :=
  let batteryData := data_of_type items "battery" in
  let altitudeData := data_of_type items "altitude" in
  let stateData := data_of_type items "state" in
  let armed := nullish (opt_field stateData "armed") (JBool false) in
  let mode := nullish (opt_field stateData "mode") (JNum (Fin 0)) in
  let defaultLat := (377749 # 10000)%Q in
  let defaultLon := (-1224194 # 10000)%Q in
  VObject
    [("droneId", str (droneId items));
     ("timestamp", VScalar (JNum (latestTimestamp items now)));
     ("position", VObject [("lat", num defaultLat);
                           ("lon", num defaultLon);
                           ("alt", VScalar (altitude altitudeData))]);
     ("velocity", VObject [("vx", num 0); ("vy", num 0); ("vz", num 0)]);
     ("attitude", VObject [("roll", num 0); ("pitch", num 0); ("yaw", num 0)]);
     ("battery",
      VScalar (JNum (clamp_percent (ToNumber (batteryPercent batteryData)))));
     ("flightMode", flightMode mode);
     ("armed", VScalar (JBool (ToBoolean armed)))]%string.

End WithHost.

(** Reading a property of a structured value, the way a consumer of the
    telemetry object does ([telemetry.k]). *)
Definition get (v : Value) (k : string) : Value :=
  match v with
  | VObject props => get_object props k
  | _ => undefined
  end.

End Dynamo.

(** ** [src/services/api.ts] *)

Module Api.
Import Js Async.

(** The response of [fetch]: its status line and what [response.json()]
    does (it rejects when the body is not JSON). *)
Record Response : Type := {
  status : Z;
  statusText : string;
  json : Completion Value
}.

(** [response.ok]: the status is in the range 200-299. *)
Definition ok (r : Response) : bool := (200 <=? status r) && (status r <=? 299).

(** [fetch] rejects on a transport failure and resolves with a response
    otherwise, whatever its status. *)
Definition FetchOutcome : Type := Completion Response.

(** [v.k] for a key that the prototypes of strings, numbers, booleans and
    arrays do not define: a [TypeError] on [null] and [undefined]. *)
Definition member (v : Value) (k : string) : Completion Value :=
  match v with
  | VScalar JUndefined | VScalar JNull =>
      Rejected (ErrorObject ("Cannot read properties of null or undefined (reading '"
                             +:+ k +:+ "')"))
  | VObject props => Fulfilled (get_object props k)
  | _ => Fulfilled undefined
  end.

(** [v || null] *)
Definition or_null (v : Value) : Value := if truthy v then v else null.

Definition check_ok (response : Response) : Completion unit :=
  if negb (ok response)
  then Rejected (ErrorObject ("API request failed: " +:+ decimal (status response)
                              +:+ " " +:+ statusText response))
  else Fulfilled ().

(** [getLatestTelemetry] of [src/services/api.ts] *)
Definition getLatestTelemetry (fetched : FetchOutcome) : Completion Value :=
  try_catch
    (response ← fetched;
     _ ← check_ok response;
     data ← json response;
     telemetry ← member data "telemetry";
     Fulfilled (or_null telemetry))
    (fun error => Fulfilled null).

Section WithHost.
Context `{Host}.

Definition parse (s : string) : Completion Value :=
  match JSON_parse s with
  | Some v => Fulfilled v
  | None => Rejected (ErrorObject "Unexpected token in JSON")
  end.

(** The variant that first unwraps a Lambda proxy response
    ([{ statusCode, body, headers }]). *)
Definition getLatestTelemetry_proxy (fetched : FetchOutcome) : Completion Value :=
  try_catch
    (response ← fetched;
     _ ← check_ok response;
     data ← json response;
     body ← member data "body";
     if truthy body
     then
       bodyData ← match body with
                  | VScalar (JStr s) => parse s
                  | _ => Fulfilled body
                  end;
       telemetry ← member bodyData "telemetry";
       Fulfilled (or_null telemetry)
     else
       telemetry ← member data "telemetry";
       Fulfilled (or_null telemetry))
    (fun error => Fulfilled null).

End WithHost.

End Api.

(** ** [src/hooks/useDynamoDB.ts] *)

Module Hook.
Import Js Async.

(** The three [useState] cells of the hook; [telemetry] starts as [null]. *)
Record State : Type := {
  telemetry : Value;
  isConnected : bool;
  error : option string
}.

Definition initial : State :=
  {| telemetry := null; isConnected := false; error := None |}.

(** [err instanceof Error ? err.message : 'Unknown error'] *)
Definition errorMessage (err : Thrown) : string :=
  match err with
  | ErrorObject message => message
  | NonError => "Unknown error"
  end.

(** The [catch] branch shared by both hooks. *)
Definition on_error (isMounted : bool) (err : Thrown) (s : State) : State :=
  if negb isMounted then s
  else {| telemetry := telemetry s;
          isConnected := false;
          error := Some (errorMessage err) |}.

(** [pollTelemetry] of the API-backed hook, from the point where the awaited
    [getLatestTelemetry()] settles; [isMounted] is the flag the cleanup
    function clears. *)
Definition pollTelemetry (isMounted : bool) (settled : Completion Value)
    (s : State) : State :=
  match settled with
  | Fulfilled data =>
      if negb isMounted then s
      else if truthy data
           then {| telemetry := data; isConnected := true; error := None |}
           else {| telemetry := telemetry s; isConnected := true; error := None |}
  | Rejected err => on_error isMounted err s
  end.

(** The hook as wired: the adapter is [Api.getLatestTelemetry]. *)
Definition poll_api (isMounted : bool) (fetched : Api.FetchOutcome) (s : State)
  : State :=
  pollTelemetry isMounted (Api.getLatestTelemetry fetched) s.

(** A run of the hook: each cycle settles before or after the cleanup. *)
Definition run_api (cycles : list (bool * Api.FetchOutcome)) (s : State) : State :=
  foldl (fun s c => poll_api c.1 c.2 s) s cycles.

Section WithHost.
Context `{Host}.

(** [pollTelemetry] of the DynamoDB-backed hook; [now] is the clock read by
    the transformation. *)
Definition pollTelemetry_dynamo (isMounted : bool)
    (settled : Completion (list Dynamo.Item)) (now : Z) (s : State) : State :=
  match settled with
  | Fulfilled items =>
      if negb isMounted then s
      else match items with
           | _ :: _ =>
               let transformed := Dynamo.transformMavlinkToTelemetry items now in
               {| telemetry := transformed; isConnected := true; error := None |}
           | [] =>
               {| telemetry := telemetry s; isConnected := true; error := None |}
           end
  | Rejected err => on_error isMounted err s
  end.

Definition poll_dynamo (isMounted : bool) (scanned : Dynamo.ScanOutcome) (now : Z)
    (s : State) : State :=
  pollTelemetry_dynamo isMounted (Dynamo.getLatestTelemetry scanned) now s.

End WithHost.

End Hook.

(** ** The table of flight modes, as the specification lists it *)

Module Spec.

Definition mode_names : list (Z * string) :=
  [(0, "STABILIZE"); (1, "ACRO"); (2, "ALT_HOLD"); (3, "AUTO"); (4, "GUIDED");
   (5, "LOITER"); (6, "RTL"); (7, "CIRCLE"); (8, "LAND"); (9, "OF_LOITER");
   (10, "TAKEOFF")]%string.

(** The linear estimate [(voltage - 12) / 4.2 * 100] and the clamp to
    [[0,100]]. *)
Definition estimate (voltage : Q) : Q := ((voltage - 12) / (42 # 10) * 100)%Q.
Definition clamp (x : Q) : Q := Qmax 0 (Qmin 100 x).

End Spec.

(** ** The notions the properties are stated with *)

Module Notions.
Import Js Async Dynamo.

(** The kind of a fragment is [item.data?.type]. *)
Definition kind_is (k : string) (item : Item) : Prop :=
  data_field item "type" = JStr k.

(** Field [k] of the object [t] holds the number [n]. *)
Definition holds_number (t : Value) (k : string) (n : JsNum) : Prop :=
  exists m, get t k = VScalar (JNum m) /\ num_eq m n.

(** What a populated field looks like. *)
Definition defined (v : Value) : Prop := v <> undefined.
Definition is_number (v : Value) : Prop := exists n, v = VScalar (JNum n).
Definition is_text (v : Value) : Prop := exists s, v = VScalar (JStr s).
Definition is_boolean (v : Value) : Prop := exists b, v = VScalar (JBool b).

(** No fragment of kind [k] in a batch. *)
Definition none_of_kind (k : string) (items : list Item) : Prop :=
  Forall (fun item => ~ kind_is k item) items.

(** A response that is not in the 2xx range, with any body. *)
Definition not_2xx (r : Api.Response) : Prop := Api.ok r = false.

(** Reading back the decimal rendering of an integer. *)
Definition undecimal (s : string) : option Z :=
  option_map Z.of_int (NilZero.int_of_string s).

Section WithHost.
Context `{Host}.

(** The effective timestamp as the comparator sees it. *)
Definition time_of (item : Item) : JsNum := ToNumber (effective_timestamp item).

(** A batch whose effective timestamps are all finite numbers. *)
Definition timed (items : list Item) : Prop :=
  Forall (fun item => exists q, time_of item = Fin q) items.

(** [a] is strictly older than [b]. *)
Definition older (a b : Item) : Prop :=
  exists p q, time_of a = Fin p /\ time_of b = Fin q /\ (p < q)%Q.

(** [a] is at least as recent as [b]. *)
Definition not_older (a b : Item) : Prop :=
  exists p q, time_of a = Fin p /\ time_of b = Fin q /\ (q <= p)%Q.

(** The type under which [getLatestTelemetry] files a record. *)
Definition filed_as (k : string) (item : Item) : Prop := type_of item = JStr k.


End WithHost.

End Notions.

(** ** A stand-in host and sample records *)

Module Sample.
Import Js Async Dynamo.

(** A host that reads decimal integer literals and nothing else. It stands in
    for the JavaScript runtime where a statement is evaluated on inputs that
    exercise none of the host functions. *)
Definition integer_literal (s : string) : JsNum :=
  match NilZero.int_of_string s with
  | Some d => Fin (inject_Z (Z.of_int d))
  | None => NaN
  end.

#[local] Instance host : Host := {|
  StringToNumber := integer_literal;
  parseFloat := integer_literal;
  JSON_parse := fun _ => None;
  fracToString := fun _ => "0.5"%string;
  fracToString_shape := fun _ =>
    ex_intro _ "0"%char
      (ex_intro _ ".5"%string
         (conj eq_refl
            (conj (or_intror (conj (le_n 48) (proj1 (Nat.leb_le 48 57) eq_refl)))
                  (or_introl eq_refl))))
|}.

(** A record [{ timestamp: ts, sysid: 1, data: { timestamp: ts, ...d } }]. *)
Definition record (ts : Z) (d : gmap string JsVal) : Item :=
  {| attrs := {[ "timestamp"%string := JNum (Fin (inject_Z ts));
                 "sysid"%string := JNum (Fin 1) ]};
     data := Some (<[ "timestamp"%string := JNum (Fin (inject_Z ts)) ]> d) |}.

Definition battery_remaining (ts : Z) (remaining : Q) : Item :=
  record ts {[ "type"%string := JStr "battery";
               "remaining"%string := JNum (Fin remaining) ]}.

Definition battery_voltage (ts : Z) (voltage : Q) : Item :=
  record ts {[ "type"%string := JStr "battery";
               "voltage"%string := JNum (Fin voltage) ]}.

Definition altitude_relative (ts : Z) (relative : Q) : Item :=
  record ts {[ "type"%string := JStr "altitude";
               "relative"%string := JNum (Fin relative) ]}.

Definition state (ts : Z) (armed : bool) (mode : Q) : Item :=
  record ts {[ "type"%string := JStr "state";
               "armed"%string := JBool armed;
               "mode"%string := JNum (Fin mode) ]}.

(** An altitude fragment whose [relative] is null, and a state fragment whose
    [armed] and [mode] are null. *)
Definition altitude_null (ts : Z) : Item :=
  record ts {[ "type"%string := JStr "altitude"; "relative"%string := JNull ]}.

Definition state_null (ts : Z) : Item :=
  record ts {[ "type"%string := JStr "state";
               "armed"%string := JNull;
               "mode"%string := JNull ]}.

End Sample.

(** ** More notions about the scan and the fused object *)

Module Kept.
Import Js Async Dynamo Notions.

(** The three types whose presence ends the loop of [getLatestTelemetry]. *)
Definition main_type (k : string) : Prop :=
  k = "battery"%string \/ k = "altitude"%string \/ k = "state"%string.

Section WithHost.
Context `{Host}.

(** The map has a record of each main type: the condition of the [break]. *)
Definition complete (m : list (JsVal * Item)) : bool :=
  has m (JStr "battery") && has m (JStr "altitude") && has m (JStr "state").

(** Each record sits under its own type. *)
Definition well_keyed (m : list (JsVal * Item)) : Prop :=
  Forall (fun e => e.1 = type_of e.2) m.

(** No two entries have the same key. *)
Fixpoint distinct (m : list (JsVal * Item)) : Prop :=
  match m with
  | [] => True
  | e :: rest => has rest e.1 = false /\ distinct rest
  end.

(** No two records of a list are filed under the same type. *)
Definition one_per_type (items : list Item) : Prop :=
  forall i j a b, items !! i = Some a -> items !! j = Some b -> i <> j ->
                  same_value_zero (type_of a) (type_of b) = false.

(** No record filed as [k] in the map, each record under its own type. *)
Definition none_filed (k : string) (m : list (JsVal * Item)) : Prop :=
  Forall (fun e => e.1 = type_of e.2 /\ ~ filed_as k e.2) m.

(** Is a record filed as [k]? *)
Definition filed_asb (k : string) (item : Item) : bool :=
  match type_of item with
  | JStr s => String.eqb s k
  | _ => false
  end.

End WithHost.

(** A number that is NaN or lies in [[0,100]]. *)
Definition percentage_or_NaN (n : JsNum) : Prop :=
  match n with
  | NaN => True
  | Fin q => (0 <= q <= 100)%Q
  | _ => False
  end.

End Kept.

(** ** More sample records *)

Module Sample2.
Import Js Dynamo.

(** A record of a type outside the three main ones. *)
Definition position_fix (ts : Z) (lat lon : Q) : Item :=
  Sample.record ts {[ "type"%string := JStr "gps";
                      "lat"%string := JNum (Fin lat);
                      "lon"%string := JNum (Fin lon) ]}.

Definition altitude_amsl (ts : Z) (amsl : Q) : Item :=
  Sample.record ts {[ "type"%string := JStr "altitude";
                      "amsl"%string := JNum (Fin amsl) ]}.

(** The body of a Lambda proxy response, [{"telemetry":{"battery":60}}],
    and a host whose [JSON.parse] reads that one document. *)
Definition dq : string := String "034"%char EmptyString.

Definition body_text : string :=
  "{" +:+ dq +:+ "telemetry" +:+ dq +:+ ":{" +:+ dq +:+ "battery" +:+ dq
  +:+ ":60}}".

Definition body_value : Value :=
  VObject [("telemetry"%string, VObject [("battery"%string, num 60)])].

#[local] Instance envelope_host : Host := {|
  StringToNumber := Sample.integer_literal;
  parseFloat := Sample.integer_literal;
  JSON_parse := fun s => if String.eqb s body_text then Some body_value else None;
  fracToString := fun _ => "0.5"%string;
  fracToString_shape := @fracToString_shape Sample.host
|}.

End Sample2.

(** ** The armed indicator of the components

    [FullScreenDashboard.tsx], [ProfessionalTelemetry.tsx] and
    [DashboardHeader.tsx] compute the same [displayArmed]. *)

Module Display.
Import Js.

(** [v === true] and [v === false] *)
Definition is_exactly (v : Value) (b : bool) : bool :=
  match v with
  | VScalar (JBool x) => Bool.eqb x b
  | _ => false
  end.

(** [a ?? b] on structured values *)
Definition nullish_value (a b : Value) : Value :=
  match a with
  | VScalar JUndefined | VScalar JNull => b
  | _ => a
  end.

Definition is_nullish (v : Value) : Prop := v = undefined \/ v = null.

(** [telemetry?.hasStateData === true ? telemetry.armed
     : (telemetry?.armed ?? true)]; the telemetry is [null] or an object. *)
Definition displayArmed (telemetry : Value) : Value :=
  if is_exactly (Dynamo.get telemetry "hasStateData") true
  then Dynamo.get telemetry "armed"
  else nullish_value (Dynamo.get telemetry "armed") (VScalar (JBool true)).

(** The status text of [ProfessionalTelemetry]:
    [`${displayArmed ? "ARMED" : "DISARMED"}${telemetry.hasStateData === false ? "*" : ""}`].
    The component returns its skeleton at [if (!telemetry)], before the text
    is built: there is no status text then. *)
Definition statusLabel (telemetry : Value) : option string :=
  if negb (truthy telemetry) then None
  else Some ((if truthy (displayArmed telemetry) then "ARMED" else "DISARMED")
             +:+ (if is_exactly (Dynamo.get telemetry "hasStateData") false
                  then "*" else "")).

End Display.

(** ** Runs of the DynamoDB-backed hook *)

Module HookRuns.
Import Js Async Hook.

Section WithHost.
Context `{Host}.

(** A cycle: whether it settles before the cleanup, what the scan did, and
    the clock at the transformation. *)
Definition run_dynamo (cycles : list (bool * Dynamo.ScanOutcome * Z)) (s : State)
  : State :=
  foldl (fun s c => poll_dynamo c.1.1 c.1.2 c.2 s) s cycles.

End WithHost.

End HookRuns.

(** ** [src/utils/formatters.ts] *)

Module Format.
Import Js.

(** What [new Date(timestamp).toLocaleTimeString(...)] prints depends on the
    locale and the time zone of the browser. *)
Class Locale : Type := {
  (** [new Date(t).toLocaleTimeString()] *)
  toLocaleTimeString : JsNum -> string;
  (** [new Date(t).toLocaleTimeString('en-US', { hour: '2-digit', minute: '2-digit' })] *)
  toLocaleTimeString_en_US : JsNum -> string
}.

Fixpoint zeros (n : nat) : string :=
  match n with
  | O => EmptyString
  | S n' => String "0"%char (zeros n')
  end.

(** [Math.floor] *)
Definition floor (x : JsNum) : JsNum :=
  match x with
  | Fin q => Fin (inject_Z (Qfloor q))
  | _ => x
  end.

Section WithHost.
Context `{Host}.

(** [x.toFixed(f)] for [0 <= f <= 100]: the integer [n] closest to
    [x * 10^f] (the larger one on a tie), printed with [f] decimals; numbers
    from 10^21 on and non-finite numbers are printed as [String(x)]. *)
Definition toFixed (x : JsNum) (f : nat) : string :=
  match x with
  | Fin q =>
      let negative := negb (Qle_bool 0 q) in
      let s := if negative then "-" else "" in
      let a := if negative then (- q)%Q else q in
      if Qle_bool (inject_Z (10 ^ 21)) a
      then s +:+ NumberToString (Fin a)
      else
        let n := Qfloor (a * inject_Z (10 ^ Z.of_nat f) + (1 # 2)) in
        let m := decimal n in
        let m :=
          match f with
          | O => m
          | _ =>
              let k := String.length m in
              let m := if (k <=? f)%nat then zeros (f + 1 - k) +:+ m else m in
              let k := String.length m in
              substring 0 (k - f) m +:+ "." +:+ substring (k - f) f m
          end in
        s +:+ m
  | _ => NumberToString x
  end.

Definition formatCoordinate (value : JsNum) : string := toFixed value 6.
Definition formatAltitude (meters : JsNum) : string := toFixed meters 1 +:+ " m".
Definition formatBattery (percentage : JsNum) : string :=
  toFixed percentage 1 +:+ "%".
Definition formatVelocity (mps : JsNum) : string := toFixed mps 2 +:+ " m/s".

Definition formatDistance (meters : JsNum) : string :=
  if num_ltb meters (Fin 1000) then toFixed meters 0 +:+ " m"
  else toFixed (div meters (Fin 1000)) 2 +:+ " km".

(** [formatTimestamp]; [now] is [Date.now()]. *)
Definition formatTimestamp `{Locale} (now : Z) (timestamp : JsNum) : string :=
  let diff := sub (Fin (inject_Z now)) timestamp in
  if num_ltb diff (Fin 60000) then "Just now"
  else if num_ltb diff (Fin 3600000)
       then let mins := floor (div diff (Fin 60000)) in
            NumberToString mins +:+ "m ago"
       else toLocaleTimeString_en_US timestamp.

End WithHost.

Definition formatTime `{Locale} (timestamp : JsNum) : string :=
  toLocaleTimeString timestamp.

Definition getBatteryColor (percentage : JsNum) : string :=
  if num_ltb (Fin 50) percentage then "text-green-400"
  else if num_ltb (Fin 20) percentage then "text-yellow-400"
       else "text-red-400".

Definition getAlertColor (severity : string) : string :=
  if String.eqb severity "CRITICAL"
  then "text-red-400 bg-red-400/10 border-red-400/20"
  else if String.eqb severity "WARNING"
  then "text-yellow-400 bg-yellow-400/10 border-yellow-400/20"
  else if String.eqb severity "INFO"
  then "text-blue-400 bg-blue-400/10 border-blue-400/20"
  else "text-gray-400 bg-gray-400/10 border-gray-400/20".

(** Strings of flight modes are ASCII; [toLowerCase] is modelled on ASCII
    letters and leaves every other character as it is. *)
Definition ascii_only (s : string) : Prop :=
  Forall (fun c => (nat_of_ascii c < 128)%nat) (list_ascii_of_string s).

Definition lower (c : ascii) : ascii :=
  let n := nat_of_ascii c in
  if (65 <=? n)%nat && (n <=? 90)%nat then ascii_of_nat (n + 32) else c.

Fixpoint toLowerCase (s : string) : string :=
  match s with
  | EmptyString => EmptyString
  | String c rest => String (lower c) (toLowerCase rest)
  end.

(** [s.split('_')] *)
Fixpoint split_underscore (s : string) : list string :=
  match s with
  | EmptyString => [EmptyString]
  | String c rest =>
      if Ascii.eqb c "_"
      then EmptyString :: split_underscore rest
      else match split_underscore rest with
           | word :: words => String c word :: words
           | [] => [String c EmptyString]
           end
  end.

(** [words.join(' ')] *)
Fixpoint join_space (words : list string) : string :=
  match words with
  | [] => EmptyString
  | [word] => word
  | word :: rest => word +:+ " " +:+ join_space rest
  end.

(** [word.charAt(0) + word.slice(1).toLowerCase()] *)
Definition capitalised (word : string) : string :=
  match word with
  | EmptyString => EmptyString
  | String c rest => String c (toLowerCase rest)
  end.

Definition formatFlightMode (mode : string) : string :=
  join_space (map capitalised (split_underscore mode)).

End Format.

(** ** The listener registry and the reconnection of the WebSocket services

    [on], [off] and [emit] are the same in [MockWebSocketService] and in
    [WebSocketService]; the reconnection is [WebSocketService]'s. *)

Module Events.
Import Js Async.

(** [Set.prototype.add] and [delete] on a set of callbacks kept in insertion
    order; a callback is identified by a number. *)
Definition set_add (cb : nat) (s : list nat) : list nat :=
  if bool_decide (cb ∈ s) then s else s ++ [cb].

Definition set_delete (cb : nat) (s : list nat) : list nat :=
  List.filter (fun c => negb (Nat.eqb c cb)) s.

(** [listeners.get(event)], as a list that is empty for a missing event *)
Definition listeners_of (listeners : gmap string (list nat)) (event : string)
  : list nat := default [] (listeners !! event).

Definition on (event : string) (cb : nat) (listeners : gmap string (list nat))
  : gmap string (list nat) :=
  let listeners :=
    match listeners !! event with
    | Some _ => listeners
    | None => <[event := []]> listeners
    end in
  match listeners !! event with
  | Some s => <[event := set_add cb s]> listeners
  | None => listeners
  end.

Definition off (event : string) (cb : nat) (listeners : gmap string (list nat))
  : gmap string (list nat) :=
  match listeners !! event with
  | Some s => <[event := set_delete cb s]> listeners
  | None => listeners
  end.

(** [try { callback(data) } catch (error) { console.error(...) }] *)
Definition invoke (behaviour : nat -> Value -> Completion unit) (data : Value)
    (cb : nat) : Completion unit :=
  try_catch (behaviour cb data) (fun error => Fulfilled ()).

(** [forEach] over the set; the result lists the callbacks called. *)
Fixpoint forEach (behaviour : nat -> Value -> Completion unit) (data : Value)
    (s : list nat) : Completion (list nat) :=
  match s with
  | [] => Fulfilled []
  | cb :: rest =>
      _ ← invoke behaviour data cb;
      called ← forEach behaviour data rest;
      Fulfilled (cb :: called)
  end.

Definition emit (behaviour : nat -> Value -> Completion unit) (event : string)
    (data : Value) (listeners : gmap string (list nat)) : Completion (list nat) :=
  match listeners !! event with
  | Some s => forEach behaviour data s
  | None => Fulfilled []
  end.

Definition maxReconnectAttempts : Z := 5.
Definition reconnectDelay : Z := 1000.

(** [attemptReconnect]: the new value of [reconnectAttempts] and the delay of
    the [connect] it schedules, if it schedules one. *)
Definition attemptReconnect (reconnectAttempts : Z) : Z * option Z :=
  if reconnectAttempts >=? maxReconnectAttempts then (reconnectAttempts, None)
  else
    let reconnectAttempts := reconnectAttempts + 1 in
    (reconnectAttempts, Some (reconnectDelay * 2 ^ (reconnectAttempts - 1))).

(** [onopen] resets the counter; [onclose] (and a failed construction of the
    socket) calls [attemptReconnect]. The state is the counter and the delays
    scheduled so far. *)
Inductive SocketEvent : Type := Opened | Closed.

Definition handle (st : Z * list Z) (ev : SocketEvent) : Z * list Z :=
  match ev with
  | Opened => (0, st.2)
  | Closed =>
      let r := attemptReconnect st.1 in
      (r.1, st.2 ++ match r.2 with Some delay => [delay] | None => [] end)
  end.

Definition run (events : list SocketEvent) (st : Z * list Z) : Z * list Z :=
  foldl handle st events.

End Events.

(** ** The alert list of [useWebSocket] *)

Module Alerts.
Import Js.

Record Alert : Type := {
  alertId : string;
  droneId : string;
  type : string;
  severity : string;
  timestamp : JsNum;
  message : string;
  resolved : bool;
  resolvedAt : option JsNum
}.

(** [setIsConnected(data.status === 'connected')] *)
Definition handleStatus (status : string) : bool := String.eqb status "connected".

(** [[data, ...prev.filter((a) => a.alertId !== data.alertId)]] *)
Definition handleAlertTriggered (data : Alert) (prev : list Alert) : list Alert :=
  data :: List.filter (fun a => negb (String.eqb (alertId a) (alertId data))) prev.

(** [{ ...alert, resolved: true, resolvedAt: data.resolvedAt }] *)
Definition resolve (data alert : Alert) : Alert :=
  {| alertId := alertId alert; droneId := droneId alert; type := type alert;
     severity := severity alert; timestamp := timestamp alert;
     message := message alert; resolved := true;
     resolvedAt := resolvedAt data |}.

Definition handleAlertResolved (data : Alert) (prev : list Alert) : list Alert :=
  map (fun alert => if String.eqb (alertId alert) (alertId data)
                    then resolve data alert else alert) prev.

(** The messages that change the list, and the list after a run of them. *)
Inductive AlertEvent : Type :=
  | Triggered (data : Alert)
  | Resolved (data : Alert).

Definition apply_event (alerts : list Alert) (ev : AlertEvent) : list Alert :=
  match ev with
  | Triggered data => handleAlertTriggered data alerts
  | Resolved data => handleAlertResolved data alerts
  end.

Definition run (events : list AlertEvent) : list Alert :=
  foldl apply_event [] events.

End Alerts.

(** ** The command API ([sendCommand], [getTelemetryHistory]) *)

Module Command.
Import Js Async.

(** The body both functions share after the request is built: check the
    status, parse the body, and rethrow whatever was caught. *)
Definition request (fetched : Api.FetchOutcome) : Completion Value :=
  try_catch
    (response ← fetched;
     _ ← (if negb (Api.ok response)
          then Rejected (ErrorObject ("HTTP error! status: "
                                      +:+ decimal (Api.status response)))
          else Fulfilled ());
     Api.json response)
    (fun error => Rejected error).

Definition sendCommand (fetched : Api.FetchOutcome) : Completion Value :=
  request fetched.

Definition getTelemetryHistory (fetched : Api.FetchOutcome) : Completion Value :=
  request fetched.

End Command.

(** ** Notions about the formatted texts *)

Module FormatNotions.
Import Js Format.

(** The text [toFixed(1)] builds from the integer [n] of tenths. *)
Definition one_decimal (n : Z) : string :=
  let m := decimal n in
  let k := String.length m in
  let m := if (k <=? 1)%nat then zeros (1 + 1 - k) +:+ m else m in
  let k := String.length m in
  substring 0 (k - 1) m +:+ "." +:+ substring (k - 1) 1 m.

(** A percentage text: whole part 0..100, a point, one digit, the sign. *)
Definition percent_text (s : string) : Prop :=
  exists units tenth, 0 <= units <= 100 /\ 0 <= tenth <= 9
                      /\ s = decimal units +:+ "." +:+ decimal tenth +:+ "%".

(** A word of a name starts at the first character and after every
    underscore. *)
Definition starts_word (i : nat) (s : string) : Prop :=
  match i with
  | O => True
  | S j => String.get j s = Some "_"%char
  end.

(** An upper-case ASCII letter, A to Z. *)
Definition upper_case (c : ascii) : Prop := (65 <= nat_of_ascii c <= 90)%nat.

(** The text of a flight mode, one character at a time; [start] tells
    whether the next character opens a word. *)
Fixpoint letters (start : bool) (s : string) : string :=
  match s with
  | EmptyString => EmptyString
  | String c rest =>
      if Ascii.eqb c "_" then String " " (letters true rest)
      else String (if start then c else lower c) (letters false rest)
  end.

End FormatNotions.

(** ** A stand-in locale *)

Module Sample3.

(** A browser locale that prints every time the same way: a stand-in where
    the text of a clock time does not matter. *)
#[local] Instance locale : Format.Locale := {|
  Format.toLocaleTimeString := fun _ => "12:00:00 PM"%string;
  Format.toLocaleTimeString_en_US := fun _ => "12:00 PM"%string
|}.

End Sample3.


(** ** Facts about numbers and renderings *)

Module JsFacts.
Import Js Notions.

Lemma num_eq_refl (a : JsNum) : num_eq a a.
Proof. destruct a; simpl; auto. reflexivity. Qed.

Lemma num_ltb_fin (p q : Q) : num_ltb (Fin p) (Fin q) = true <-> (p < q)%Q.
Proof.
  simpl. rewrite negb_true_iff. split.
  - intros E. apply Qnot_le_lt. intros L. apply Qle_bool_iff in L. congruence.
  - intros L. destruct (Qle_bool q p) eqn:E; [|reflexivity].
    apply Qle_bool_iff in E. exfalso. apply (Qlt_not_le _ _ L E).
Qed.

Lemma num_ltb_fin_false (p q : Q) : num_ltb (Fin p) (Fin q) = false <-> (q <= p)%Q.
Proof.
  simpl. rewrite negb_false_iff. apply Qle_bool_iff.
Qed.

Lemma max2_fin (p q : Q) :
  exists r, max2 (Fin p) (Fin q) = Fin r /\ (r == Qmax p q)%Q.
Proof.
  unfold max2. destruct (num_ltb (Fin p) (Fin q)) eqn:E.
  - apply num_ltb_fin in E. exists q. split; [reflexivity|].
    symmetry. apply Q.max_r. now apply Qlt_le_weak.
  - apply num_ltb_fin_false in E. exists p. split; [reflexivity|].
    symmetry. now apply Q.max_l.
Qed.

Lemma min2_fin (p q : Q) :
  exists r, min2 (Fin p) (Fin q) = Fin r /\ (r == Qmin p q)%Q.
Proof.
  unfold min2. destruct (num_ltb (Fin q) (Fin p)) eqn:E.
  - apply num_ltb_fin in E. exists q. split; [reflexivity|].
    symmetry. apply Q.min_r. now apply Qlt_le_weak.
  - apply num_ltb_fin_false in E. exists p. split; [reflexivity|].
    symmetry. now apply Q.min_l.
Qed.

Lemma clamp_percent_fin (q : Q) :
  exists r, Dynamo.clamp_percent (Fin q) = Fin r /\ (r == Spec.clamp q)%Q.
Proof.
  unfold Dynamo.clamp_percent, Spec.clamp.
  destruct (min2_fin 100 q) as (m & -> & Em).
  destruct (max2_fin 0 m) as (r & -> & Er).
  exists r. split; [reflexivity|]. rewrite Er, Em. reflexivity.
Qed.

Lemma clamp_bounds (q : Q) : (0 <= Spec.clamp q <= 100)%Q.
Proof.
  unfold Spec.clamp.
  destruct (Q.max_spec 0 (Qmin 100 q)) as [[L ->]|[L ->]];
  destruct (Q.min_spec 100 q) as [[M E]|[M E]]; rewrite ?E in *; split; lra.
Qed.

Lemma clamp_idempotent (q : Q) : (Spec.clamp (Spec.clamp q) == Spec.clamp q)%Q.
Proof.
  pose proof (clamp_bounds q) as [L U]. unfold Spec.clamp at 1.
  rewrite (Q.min_r 100 _ U). now apply Q.max_r.
Qed.

Lemma clamp_inside (q : Q) : (0 <= q <= 100)%Q -> (Spec.clamp q == q)%Q.
Proof.
  intros [L U]. unfold Spec.clamp. rewrite (Q.min_r 100 _ U). now apply Q.max_r.
Qed.

Lemma clamp_compat (p q : Q) : (p == q)%Q -> (Spec.clamp p == Spec.clamp q)%Q.
Proof. intros E. unfold Spec.clamp. now rewrite E. Qed.

Lemma undecimal_decimal (z : Z) : undecimal (decimal z) = Some z.
Proof.
  unfold undecimal, decimal. rewrite NilZero.isi.
  - simpl. now rewrite DecimalZ.of_to.
  - destruct z as [|p|p]; simpl; try discriminate.
    intros [= E]. exact (DecimalPos.Unsigned.to_uint_nonnil p E).
  - destruct z as [|p|p]; simpl; try discriminate.
    intros [= E]. exact (DecimalPos.Unsigned.to_uint_nonnil p E).
Qed.

Lemma Qred_inject_Z (z : Z) : Qred (inject_Z z) = inject_Z z.
Proof.
  unfold Qred, inject_Z.
  pose proof (Z.ggcd_gcd z 1) as G. pose proof (Z.ggcd_correct_divisors z 1) as D.
  destruct (Z.ggcd z 1) as [g [a b]]. simpl in G. rewrite Z.gcd_1_r in G.
  subst g. destruct D as [Da Db]. rewrite !Z.mul_1_l in *. now subst a b.
Qed.

Lemma Qred_integer (q : Q) (z : Z) : (q == inject_Z z)%Q -> Qred q = inject_Z z.
Proof.
  intros E. rewrite (Qred_complete _ _ E). apply Qred_inject_Z.
Qed.

Lemma small_integer_is_integer (q : Q) :
  is_small_integer q = true -> (q == inject_Z (Qnum (Qred q)))%Q.
Proof.
  unfold is_small_integer. intros E. apply andb_true_iff in E as [E _].
  apply Pos.eqb_eq in E. rewrite <- (Qred_correct q) at 1.
  destruct (Qred q) as [n d]. simpl in *. subst d. reflexivity.
Qed.

End JsFacts.

(** ** The fused object, field by field *)

Module Fusion.
Import Js Async Dynamo Notions JsFacts.

Section WithHost.
Context `{Host}.

Lemma get_droneId items now :
  get (transformMavlinkToTelemetry items now) "droneId" = str (droneId items).
Proof. reflexivity. Qed.

Lemma get_timestamp items now :
  get (transformMavlinkToTelemetry items now) "timestamp"
  = VScalar (JNum (latestTimestamp items now)).
Proof. reflexivity. Qed.

Lemma get_position items now :
  get (transformMavlinkToTelemetry items now) "position"
  = VObject [("lat", num (377749 # 10000)); ("lon", num (-1224194 # 10000));
             ("alt", VScalar (altitude (data_of_type items "altitude")))]%string.
Proof. reflexivity. Qed.

Lemma get_velocity items now :
  get (transformMavlinkToTelemetry items now) "velocity"
  = VObject [("vx", num 0); ("vy", num 0); ("vz", num 0)]%string.
Proof. reflexivity. Qed.

Lemma get_attitude items now :
  get (transformMavlinkToTelemetry items now) "attitude"
  = VObject [("roll", num 0); ("pitch", num 0); ("yaw", num 0)]%string.
Proof. reflexivity. Qed.

Lemma get_battery items now :
  get (transformMavlinkToTelemetry items now) "battery"
  = VScalar (JNum (clamp_percent
                     (ToNumber (batteryPercent (data_of_type items "battery"))))).
Proof. reflexivity. Qed.

Lemma get_flightMode items now :
  get (transformMavlinkToTelemetry items now) "flightMode"
  = flightMode (nullish (opt_field (data_of_type items "state") "mode")
                        (JNum (Fin 0))).
Proof. reflexivity. Qed.

Lemma get_armed items now :
  get (transformMavlinkToTelemetry items now) "armed"
  = VScalar (JBool (ToBoolean (nullish (opt_field (data_of_type items "state") "armed")
                                       (JBool false)))).
Proof. reflexivity. Qed.

Lemma get_hasStateData items now :
  get (transformMavlinkToTelemetry items now) "hasStateData" = undefined.
Proof. reflexivity. Qed.

(** [find] and the first fragment of a kind. *)
Lemma data_of_type_none items k :
  none_of_kind k items -> data_of_type items k = None.
Proof.
  unfold data_of_type. induction 1 as [|item rest N _ IH]; [reflexivity|].
  simpl. destruct (strict_eq (data_field item "type") (JStr k)) eqn:E; [|exact IH].
  exfalso. apply N. unfold kind_is. destruct (data_field item "type"); try discriminate.
  simpl in E. apply String.eqb_eq in E. now subst.
Qed.

Lemma data_of_type_first pre item post k :
  none_of_kind k pre -> kind_is k item ->
  data_of_type (pre ++ item :: post) k = data item.
Proof.
  unfold data_of_type. intros N K. induction N as [|i rest Ni _ IH]; simpl.
  - unfold kind_is in K. rewrite K. simpl. now rewrite String.eqb_refl.
  - destruct (strict_eq (data_field i "type") (JStr k)) eqn:E; [|exact IH].
    exfalso. apply Ni. unfold kind_is. destruct (data_field i "type"); try discriminate.
    simpl in E. apply String.eqb_eq in E. now subst.
Qed.

(** *** Flight modes *)

Lemma own_absent props k :
  (forall k', In k' (map fst props) -> k <> k') -> own props k = None.
Proof.
  induction props as [|[k' v] rest IH]; intros N; [reflexivity|]. simpl.
  rewrite IH by (intros k'' I; apply N; now right).
  destruct (String.eqb_spec k k') as [E|_]; [|reflexivity].
  exfalso. apply (N k'); [now left | exact E].
Qed.

Lemma get_object_absent props k :
  (forall k', In k' (map fst props ++ inherited) -> k <> k') ->
  get_object props k = undefined.
Proof.
  intros N. unfold get_object. rewrite own_absent.
  - replace (existsb (String.eqb k) inherited) with false; [reflexivity|].
    symmetry. apply not_true_is_false. intros E.
    apply existsb_exists in E as (k' & I & E). apply String.eqb_eq in E.
    apply (N k'); [apply in_or_app; now right | exact E].
  - intros k' I. apply N. apply in_or_app. now left.
Qed.

Ltac each_key I :=
  simpl in I;
  repeat (destruct I as [I|I]; [symmetry in I|]); [..|destruct I].

Lemma decimal_not_a_key (z : Z) :
  ~ (0 <= z <= 10) ->
  forall k', In k' (map fst modeMap ++ inherited) -> decimal z <> k'.
Proof.
  intros Z k' I E. apply (f_equal undecimal) in E.
  rewrite undecimal_decimal in E.
  each_key I; subst k'; vm_compute in E; try discriminate;
    injection E as ->; lia.
Qed.

Lemma rendering_not_a_key (q : Q) :
  forall k', In k' (map fst modeMap ++ inherited) -> fracToString q <> k'.
Proof.
  intros k' I E.
  destruct (fracToString_shape q) as (c & s & S & Hd & [M|(z & B & D)]).
  - rewrite S in E.
    each_key I; subst k'; injection E as -> ->;
      solve [ discriminate M
            | destruct Hd as [Hd|Hd]; [discriminate Hd | vm_compute in Hd; lia] ].
  - rewrite S, D in E. revert E. apply decimal_not_a_key; [lia | exact I].
Qed.

Lemma flightMode_named (m : JsNum) (z : Z) (name : string) :
  In (z, name) Spec.mode_names -> num_eq m (Fin (inject_Z z)) ->
  flightMode (JNum m) = str name.
Proof.
  intros I E. destruct m as [| |q|]; simpl in E; try contradiction.
  apply Qred_integer in E.
  unfold flightMode, ToString, NumberToString, is_small_integer. rewrite E.
  each_key I; injection I as -> ->; reflexivity.
Qed.

Lemma flightMode_other (m : JsNum) :
  (forall z, 0 <= z <= 10 -> ~ num_eq m (Fin (inject_Z z))) ->
  flightMode (JNum m) = str ("MODE_" +:+ NumberToString m).
Proof.
  intros N. destruct m as [| |q|]; try reflexivity.
  unfold flightMode, ToString, NumberToString.
  destruct (is_small_integer q) eqn:S.
  - apply small_integer_is_integer in S.
    rewrite get_object_absent; [reflexivity|].
    apply decimal_not_a_key. intros R. exact (N _ R S).
  - rewrite get_object_absent; [reflexivity|].
    apply rendering_not_a_key.
Qed.

Lemma flightMode_decimal (m : JsNum) (z : Z) :
  ~ (0 <= z <= 10) -> Z.abs z < 2 ^ 53 -> num_eq m (Fin (inject_Z z)) ->
  flightMode (JNum m) = str ("MODE_" +:+ decimal z).
Proof.
  intros R B E. destruct m as [| |q|]; simpl in E; try contradiction.
  apply Qred_integer in E.
  unfold flightMode, ToString, NumberToString, is_small_integer. rewrite E.
  cbn [inject_Z Qden Qnum]. rewrite Pos.eqb_refl.
  apply Z.ltb_lt in B. rewrite B. cbn [andb].
  rewrite get_object_absent; [reflexivity|].
  now apply decimal_not_a_key.
Qed.

(** *** Battery *)

Lemma battery_from_remaining (d : option (gmap string JsVal)) (r : Q) :
  opt_field d "remaining" = JNum (Fin r) ->
  exists b, clamp_percent (ToNumber (batteryPercent d)) = Fin b
            /\ (b == Spec.clamp r)%Q.
Proof.
  intros R. unfold batteryPercent. rewrite R. simpl. apply clamp_percent_fin.
Qed.

Lemma battery_from_voltage (d : option (gmap string JsVal)) (v : Q) :
  opt_field d "remaining" = JUndefined ->
  opt_field d "voltage" = JNum (Fin v) -> ~ (v == 0)%Q ->
  exists b, clamp_percent (ToNumber (batteryPercent d)) = Fin b
            /\ (b == Spec.clamp (Spec.estimate v))%Q.
Proof.
  intros R V N. unfold batteryPercent. rewrite R, V. simpl.
  destruct (Qeq_bool v 0) eqn:Z; [apply Qeq_bool_eq in Z; contradiction|].
  simpl. destruct (clamp_percent_fin ((v - 12) / (42 # 10) * 100)) as (b1 & -> & E1).
  simpl. destruct (clamp_percent_fin b1) as (b2 & -> & E2).
  exists b2. split; [reflexivity|].
  rewrite E2, (clamp_compat _ _ E1). apply clamp_idempotent.
Qed.

Lemma battery_default (d : option (gmap string JsVal)) :
  opt_field d "remaining" = JUndefined -> opt_field d "voltage" = JUndefined ->
  exists b, clamp_percent (ToNumber (batteryPercent d)) = Fin b /\ (b == 100)%Q.
Proof.
  intros R V. unfold batteryPercent. rewrite R, V. simpl.
  destruct (clamp_percent_fin 100) as (b & -> & E).
  exists b. split; [reflexivity|]. rewrite E. reflexivity.
Qed.

(** The truthiness test on the voltage takes a reading of 0 V for a missing
    one. *)
Lemma battery_from_zero_voltage (d : option (gmap string JsVal)) (v : Q) :
  opt_field d "remaining" = JUndefined ->
  opt_field d "voltage" = JNum (Fin v) -> (v == 0)%Q ->
  exists b, clamp_percent (ToNumber (batteryPercent d)) = Fin b /\ (b == 100)%Q.
Proof.
  intros R V Z. unfold batteryPercent. rewrite R, V. simpl.
  rewrite (Qeq_eq_bool _ _ Z). simpl.
  destruct (clamp_percent_fin 100) as (b & -> & E).
  exists b. split; [reflexivity|]. rewrite E. reflexivity.
Qed.

(** *** Altitude and flight mode are never [undefined] *)

Lemma altitude_defined (d : option (gmap string JsVal)) : altitude d <> JUndefined.
Proof.
  unfold altitude.
  destruct (opt_field d "relative") eqn:R; simpl; try discriminate.
  destruct (opt_field d "amsl") eqn:A; simpl; discriminate.
Qed.

Lemma flightMode_defined (mode : JsVal) : flightMode mode <> undefined.
Proof.
  unfold flightMode.
  destruct (truthy (get_object modeMap (ToString mode))) eqn:T; [|discriminate].
  intros E. rewrite E in T. discriminate T.
Qed.

(** *** The wall clock in the timestamp *)

Lemma Math_max_with_clock (xs : list JsNum) (now : Q) :
  Forall (fun x => exists q, x = Fin q /\ (q <= now)%Q) xs ->
  exists r, Math_max (xs ++ [Fin now]) = Fin r /\ (r == now)%Q.
Proof.
  unfold Math_max.
  induction 1 as [|x rest (q & -> & L) _ (r & IH & E)]; cbn [foldr app].
  - exists now. split; reflexivity.
  - rewrite IH. destruct (max2_fin q r) as (m & -> & Em).
    exists m. split; [reflexivity|]. rewrite Em, E. now apply Q.max_r.
Qed.

Lemma wall_clock_dominates (items : list Item) (now : Z) :
  Forall (fun item => exists q, ToNumber (effective_timestamp item) = Fin q
                                /\ (q <= inject_Z now)%Q) items ->
  holds_number (transformMavlinkToTelemetry items now) "timestamp"
               (Fin (inject_Z now)).
Proof.
  intros F. unfold holds_number. rewrite get_timestamp. unfold latestTimestamp.
  destruct (Math_max_with_clock (map ToNumber (map effective_timestamp items))
                                (inject_Z now)) as (r & -> & E).
  - rewrite map_map. apply Forall_map. exact F.
  - exists (Fin r). split; [reflexivity | exact E].
Qed.

End WithHost.

(** *** The properties of the fused object *)

(** The armed field of the fused object: a batch with no fragment of kind
    state fuses to armed = false, a batch whose first fragment of kind state
    has armed = true fuses to armed = true, and no batch fuses to an object
    with a hasStateData property. *)
Lemma armed_of_first_state `{Host} (items : list Item) (now : Z) :
  let t := transformMavlinkToTelemetry items now in
  get t "hasStateData" = undefined
  /\ (none_of_kind "state" items -> get t "armed" = VScalar (JBool false))
  /\ (forall pre f post,
        items = pre ++ f :: post -> none_of_kind "state" pre ->
        kind_is "state" f -> data_field f "armed" = JBool true ->
        get t "armed" = VScalar (JBool true)).
Proof.
  cbn zeta. split; [apply get_hasStateData|]. split.
  - intros N. rewrite get_armed, (data_of_type_none _ _ N). reflexivity.
  - intros pre f post -> N K A.
    rewrite get_armed, (data_of_type_first _ _ _ _ N K).
    change (opt_field (data f) "armed") with (data_field f "armed").
    rewrite A. reflexivity.
Qed.

(** C1: the code at the failing input. A batch with a battery fragment and no
    state fragment, fused when the clock reads 1000, reports armed = false
    and has no hasStateData property (reading it gives undefined, not
    false); a batch that also holds a state fragment with armed = false
    fuses to the very same object, so the two cases cannot be told apart;
    and with a state fragment with armed = true the object has armed = true
    and still no hasStateData. *)
Theorem no_data_and_disarmed_collapse :
  let unobserved := transformMavlinkToTelemetry (H := Sample.host)
                      [Sample.battery_remaining 100 60] 1000 in
  let disarmed := transformMavlinkToTelemetry (H := Sample.host)
                    [Sample.battery_remaining 100 60; Sample.state 110 false 0]
                    1000 in
  let armed := transformMavlinkToTelemetry (H := Sample.host)
                 [Sample.battery_remaining 100 60; Sample.state 110 true 0]
                 1000 in
  (get unobserved "armed" = VScalar (JBool false)
   /\ get unobserved "hasStateData" = undefined)
  /\ disarmed = unobserved
  /\ (get armed "armed" = VScalar (JBool true)
      /\ get armed "hasStateData" = undefined).
Proof. vm_compute. repeat split. Qed.

(** C2: the code at the failing input. One battery fragment stamped 100 by
    its producer, fused when the clock reads 1000, gets the timestamp 1000. *)
Theorem timestamp_of_stale_fragment :
  get (transformMavlinkToTelemetry (H := Sample.host)
         [Sample.battery_remaining 100 60] 1000) "timestamp" = num 1000.
Proof. vm_compute. reflexivity. Qed.

(** C3 (as amended): with [f] the battery fragment that is fused,
    a numeric [remaining] gives that value clamped to [[0,100]], whatever the
    voltage; without [remaining], a non-zero numeric [voltage] gives
    [(voltage - 12) / 4.2 * 100] clamped to [[0,100]]; with neither, 100. *)
Theorem battery_derivation `{Host} (pre post : list Item) (f : Item) (now : Z) :
  none_of_kind "battery" pre -> kind_is "battery" f ->
  let t := transformMavlinkToTelemetry (pre ++ f :: post) now in
  (forall r, data_field f "remaining" = JNum (Fin r) ->
             holds_number t "battery" (Fin (Spec.clamp r)))
  /\ (forall v, data_field f "remaining" = JUndefined ->
                data_field f "voltage" = JNum (Fin v) -> ~ (v == 0)%Q ->
                holds_number t "battery" (Fin (Spec.clamp (Spec.estimate v))))
  /\ (data_field f "remaining" = JUndefined ->
      data_field f "voltage" = JUndefined ->
      holds_number t "battery" (Fin 100)).
Proof.
  intros N K. cbn zeta. unfold holds_number.
  rewrite get_battery, (data_of_type_first _ _ _ _ N K).
  change (data_field f) with (opt_field (data f)).
  split; [|split].
  - intros r R. destruct (battery_from_remaining _ _ R) as (b & -> & E).
    exists (Fin b). now split.
  - intros v R V Z. destruct (battery_from_voltage _ _ R V Z) as (b & -> & E).
    exists (Fin b). now split.
  - intros R V. destruct (battery_default _ R V) as (b & -> & E).
    exists (Fin b). now split.
Qed.

Lemma battery_derivation_witness :
  holds_number (transformMavlinkToTelemetry (H := Sample.host)
                  [Sample.battery_remaining 100 42] 1000)
               "battery" (Fin (Spec.clamp 42))
  /\ holds_number (transformMavlinkToTelemetry (H := Sample.host)
                     [Sample.battery_voltage 100 (162 # 10)] 1000)
                  "battery" (Fin (Spec.clamp (Spec.estimate (162 # 10)))).
Proof.
  split.
  - apply (proj1 (@battery_derivation Sample.host [] []
                    (Sample.battery_remaining 100 42) 1000
                    ltac:(constructor) ltac:(vm_compute; reflexivity)) 42%Q).
    vm_compute. reflexivity.
  - apply (proj1 (proj2 (@battery_derivation Sample.host [] []
                    (Sample.battery_voltage 100 (162 # 10)) 1000
                    ltac:(constructor) ltac:(vm_compute; reflexivity))) (162 # 10)%Q).
    + vm_compute. reflexivity.
    + vm_compute. reflexivity.
    + vm_compute. discriminate.
Defined.

(** The claim C3 as stated fails for a [remaining] outside [[0,100]]: a
    fragment with remaining = -1 fuses to battery = 0, not -1. *)
Lemma battery_is_not_raw_remaining :
  let t := transformMavlinkToTelemetry (H := Sample.host)
             [Sample.battery_remaining 100 (-1)] 1000 in
  holds_number t "battery" (Fin 0) /\ ~ holds_number t "battery" (Fin (-1)).
Proof.
  cbn zeta. split.
  - exists (Fin 0). split; [vm_compute; reflexivity | reflexivity].
  - intros (m & G & E). vm_compute in G. injection G as <-.
    vm_compute in E. discriminate E.
Qed.

(** Whatever the batch, the empty one included, no property of the fused
    object reads as undefined: droneId is a string, timestamp and battery are
    numbers, position has numeric lat and lon, velocity and attitude are
    zero-filled and armed is a boolean, while alt and flightMode are only
    known not to be undefined; and a kind that is missing from the batch
    degrades on its own to its default (battery 100, alt 0, armed false,
    flightMode STABILIZE). *)
Lemma fused_fields_are_defined `{Host} (items : list Item) (now : Z) :
  let t := transformMavlinkToTelemetry items now in
  (is_text (get t "droneId") /\ is_number (get t "timestamp")
   /\ is_number (get (get t "position") "lat")
   /\ is_number (get (get t "position") "lon")
   /\ defined (get (get t "position") "alt")
   /\ get (get t "velocity") "vx" = num 0
   /\ get (get t "velocity") "vy" = num 0
   /\ get (get t "velocity") "vz" = num 0
   /\ get (get t "attitude") "roll" = num 0
   /\ get (get t "attitude") "pitch" = num 0
   /\ get (get t "attitude") "yaw" = num 0
   /\ is_number (get t "battery")
   /\ defined (get t "flightMode")
   /\ is_boolean (get t "armed"))
  /\ (none_of_kind "battery" items -> holds_number t "battery" (Fin 100))
  /\ (none_of_kind "altitude" items -> get (get t "position") "alt" = num 0)
  /\ (none_of_kind "state" items ->
      get t "armed" = VScalar (JBool false)
      /\ get t "flightMode" = str "STABILIZE").
Proof.
  cbn zeta. split; [|split; [|split]].
  - rewrite get_droneId, get_timestamp, get_position, get_velocity,
      get_attitude, get_battery, get_flightMode, get_armed.
    repeat split; try reflexivity; unfold is_text, is_number, is_boolean;
      eauto.
    + intros E. injection E as E. exact (altitude_defined _ E).
    + apply flightMode_defined.
  - intros N. unfold holds_number. rewrite get_battery, (data_of_type_none _ _ N).
    destruct (battery_default None eq_refl eq_refl) as (b & -> & E).
    exists (Fin b). now split.
  - intros N. rewrite get_position. cbn [get].
    change (get_object _ "alt") with (VScalar (altitude (data_of_type items "altitude"))).
    rewrite (data_of_type_none _ _ N). reflexivity.
  - intros N. rewrite get_armed, get_flightMode, (data_of_type_none _ _ N).
    split; reflexivity.
Qed.

(** C4: the code at the failing input. An altitude fragment whose
    [relative] is null fuses to position.alt = null: the field is not
    populated, while in the same batch a state fragment whose [armed] and
    [mode] are null degrades to the defaults armed = false and
    flightMode = STABILIZE. *)
Theorem null_altitude_is_passed_on :
  let t := transformMavlinkToTelemetry (H := Sample.host)
             [Sample.altitude_null 100; Sample.state_null 110] 1000 in
  get (get t "position") "alt" = null
  /\ get t "armed" = VScalar (JBool false)
  /\ get t "flightMode" = str "STABILIZE".
Proof. vm_compute. repeat split. Qed.

(** C9: with [f] the state fragment that is fused and [m] its numeric mode,
    flightMode is the name the table gives for [m] when [m] is one of
    0..10, and the string MODE_ followed by the rendering of [m] for every
    other number: the decimal numeral of [m] when [m] is an integer below
    2^53 in magnitude, what [String(m)] prints in general. *)
Theorem flight_mode_mapping `{Host} (pre post : list Item) (f : Item)
    (m : JsNum) (now : Z) :
  none_of_kind "state" pre -> kind_is "state" f ->
  data_field f "mode" = JNum m ->
  let t := transformMavlinkToTelemetry (pre ++ f :: post) now in
  (forall z name, In (z, name) Spec.mode_names ->
                  num_eq m (Fin (inject_Z z)) ->
                  get t "flightMode" = str name)
  /\ (forall z, ~ (0 <= z <= 10) -> Z.abs z < 2 ^ 53 ->
                num_eq m (Fin (inject_Z z)) ->
                get t "flightMode" = str ("MODE_" +:+ decimal z))
  /\ ((forall z, 0 <= z <= 10 -> ~ num_eq m (Fin (inject_Z z))) ->
      get t "flightMode" = str ("MODE_" +:+ NumberToString m)).
Proof.
  intros N K M. cbn zeta.
  rewrite get_flightMode, (data_of_type_first _ _ _ _ N K).
  change (opt_field (data f) "mode") with (data_field f "mode").
  rewrite M. cbn [nullish]. split; [|split].
  - intros z name. apply flightMode_named.
  - intros z. apply flightMode_decimal.
  - apply flightMode_other.
Qed.

Lemma flight_mode_mapping_witness :
  get (transformMavlinkToTelemetry (H := Sample.host)
         [Sample.state 110 true 4] 1000) "flightMode" = str "GUIDED"
  /\ get (transformMavlinkToTelemetry (H := Sample.host)
            [Sample.state 110 true 99] 1000) "flightMode" = str "MODE_99".
Proof.
  split.
  - apply (proj1 (@flight_mode_mapping Sample.host [] []
                    (Sample.state 110 true 4) (Fin 4) 1000
                    ltac:(constructor) ltac:(vm_compute; reflexivity)
                    ltac:(vm_compute; reflexivity)) 4 "GUIDED"%string).
    + simpl. tauto.
    + reflexivity.
  - apply (proj1 (proj2 (@flight_mode_mapping Sample.host [] []
                    (Sample.state 110 true 99) (Fin 99) 1000
                    ltac:(constructor) ltac:(vm_compute; reflexivity)
                    ltac:(vm_compute; reflexivity))) 99);
      [lia | reflexivity | reflexivity].
Defined.

(** A batch with one fragment of each kind, fused when the clock reads
    1000. *)
Example fused_sample :
  let t := transformMavlinkToTelemetry (H := Sample.host)
             [Sample.battery_remaining 100 60;
              Sample.altitude_relative 105 (125 # 10);
              Sample.state 110 true 5] 1000 in
  get t "battery" = num 60
  /\ get (get t "position") "alt" = num (125 # 10)
  /\ get t "armed" = VScalar (JBool true)
  /\ get t "flightMode" = str "LOITER"
  /\ get t "droneId" = str "drone-1"
  /\ get t "timestamp" = num 1000.
Proof. vm_compute. repeat split. Qed.

(** The readings quoted with the battery rule. *)
Lemma battery_examples :
  (Spec.clamp 42 == 42)%Q /\ (Spec.clamp (Spec.estimate (162 # 10)) == 100)%Q
  /\ (Spec.clamp (Spec.estimate 12) == 0)%Q.
Proof. repeat split. Qed.

End Fusion.

(** ** From the scan to the fused object *)

Module Pipeline.
Import Js Async Dynamo Notions JsFacts Fusion.

Section WithHost.
Context `{Host}.

(** *** The sort *)

Lemma insert_sorted_perm (a : Item) (l : list Item) :
  Permutation (insert_sorted a l) (a :: l).
Proof.
  induction l as [|b rest IH]; cbn [insert_sorted]; [reflexivity|].
  destruct (num_ltb (Fin 0) (compare_items a b)); [|reflexivity].
  rewrite IH. apply perm_swap.
Qed.

Lemma sort_perm (l : list Item) : Permutation (sort l) l.
Proof.
  induction l as [|a rest IH]; cbn [sort foldr]; [reflexivity|].
  fold (sort rest). rewrite insert_sorted_perm. now constructor.
Qed.

Lemma moves_behind (a b : Item) (p q : Q) :
  time_of a = Fin p -> time_of b = Fin q ->
  num_ltb (Fin 0) (compare_items a b) = true <-> (p < q)%Q.
Proof.
  intros A B. unfold compare_items. fold (time_of a) (time_of b).
  rewrite A, B. cbn [sub]. rewrite num_ltb_fin. split; intros; lra.
Qed.

Lemma not_older_trans (a b c : Item) :
  not_older a b -> not_older b c -> not_older a c.
Proof.
  intros (p & q & A & B & L) (q' & r & B' & C & L').
  rewrite B in B'. injection B' as <-.
  exists p, r. repeat split; try assumption. lra.
Qed.

Lemma insert_sorted_sorted (a : Item) (l : list Item) :
  timed (a :: l) -> StronglySorted not_older l ->
  StronglySorted not_older (insert_sorted a l).
Proof.
  intros T S. apply Forall_cons_1 in T as [(p & A) T].
  induction S as [|b rest S IH F]; cbn [insert_sorted].
  - repeat constructor.
  - apply Forall_cons_1 in T as [(q & B) T].
    destruct (num_ltb (Fin 0) (compare_items a b)) eqn:C.
    + apply (moves_behind a b p q A B) in C.
      constructor; [now apply IH|].
      rewrite insert_sorted_perm. constructor; [|exact F].
      exists q, p. repeat split; try assumption. now apply Qlt_le_weak.
    + assert (q <= p)%Q as L.
      { apply Qnot_lt_le. intros L. apply (moves_behind a b p q A B) in L.
        congruence. }
      assert (not_older a b) as AB by (exists p, q; now repeat split).
      constructor; [now constructor|].
      constructor; [exact AB|].
      eapply Forall_impl; [exact F|]. intros c. now apply not_older_trans.
Qed.

Lemma sort_sorted (l : list Item) : timed l -> StronglySorted not_older (sort l).
Proof.
  induction l as [|a rest IH]; intros T; cbn [sort foldr]; [constructor|].
  fold (sort rest). pose proof T as T'. apply Forall_cons_1 in T' as [A T'].
  apply insert_sorted_sorted; [|now apply IH].
  constructor; [exact A|]. unfold timed. now rewrite sort_perm.
Qed.

Lemma sorted_before (l1 l2 : list Item) (b : Item) :
  StronglySorted not_older (l1 ++ b :: l2) -> Forall (fun a => not_older a b) l1.
Proof.
  induction l1 as [|a rest IH]; simpl; intros S; [constructor|].
  apply StronglySorted_inv in S as [S F]. constructor; [|now apply IH].
  rewrite List.Forall_forall in F. apply F. apply in_or_app. right. now left.
Qed.

(** The sorted batch, split at the most recent record filed as [k]. *)
Lemma sort_split (pre post : list Item) (b : Item) (k : string) :
  timed (pre ++ b :: post) ->
  Forall (fun a => filed_as k a -> older a b) (pre ++ post) ->
  exists l1 l2, sort (pre ++ b :: post) = l1 ++ b :: l2
                /\ Forall (fun a => ~ filed_as k a) l1.
Proof.
  intros T O.
  assert (In b (sort (pre ++ b :: post))) as I.
  { apply (Permutation_in b (symmetry (sort_perm _))).
    apply in_or_app. right. now left. }
  apply in_split in I as (l1 & l2 & E). exists l1, l2. split; [exact E|].
  pose proof (sort_sorted _ T) as S. rewrite E in S.
  pose proof (sorted_before _ _ _ S) as B.
  pose proof (sort_perm (pre ++ b :: post)) as P. rewrite E in P.
  apply Permutation_app_inv in P.
  rewrite <- P in O. apply Forall_app in O as [O _].
  rewrite List.Forall_forall in *. intros a I K.
  destruct (O a I K) as (p & q & A & Bq & L).
  destruct (B a I) as (p' & q' & A' & Bq' & L').
  rewrite A in A'. injection A' as <-. rewrite Bq in Bq'. injection Bq' as <-.
  lra.
Qed.

(** *** The loop that keeps one record per type *)

Lemma has_string (m : list (JsVal * Item)) (k : string) :
  Forall (fun e => e.1 <> JStr k) m -> has m (JStr k) = false.
Proof.
  unfold has. induction 1 as [|[v i] rest N _ IH]; [reflexivity|].
  cbn [existsb fst]. rewrite IH, orb_false_r.
  destruct v as [| | |n|s]; try reflexivity.
  - now destruct n.
  - simpl. apply String.eqb_neq. intros ->. now apply N.
Qed.


Lemma group_extends (l : list Item) (m : list (JsVal * Item)) :
  exists ext, group l m = m ++ ext.
Proof.
  revert m. induction l as [|item rest IH]; intros m; cbn [group].
  - exists []. now rewrite app_nil_r.
  - set (m' := if has m (type_of item) then m
               else set_new m (type_of item) item).
    assert (exists e, m' = m ++ e) as (e & E).
    { subst m'. destruct (has m (type_of item)).
      - exists []. now rewrite app_nil_r.
      - now exists [(type_of item, item)]. }
    destruct (has m' (JStr "battery") && has m' (JStr "altitude")
              && has m' (JStr "state")).
    + now exists e.
    + destruct (IH m') as (ext & ->). exists (e ++ ext).
      now rewrite E, app_assoc.
Qed.


Lemma kind_is_filed (k : string) (item : Item) :
  kind_is k item -> k <> ""%string -> filed_as k item.
Proof.
  unfold kind_is, filed_as, type_of, data_field. intros K N.
  destruct (data item) as [d|]; [|discriminate K]. rewrite K.
  unfold or. simpl. apply String.eqb_neq in N. now rewrite N.
Qed.



End WithHost.




End Pipeline.

(** ** The adapters never reject *)

Module Adapter.
Import Js Async Notions.

Lemma try_catch_fulfils {A} (body : Completion A) (fallback : A) :
  exists a, try_catch body (fun _ => Fulfilled fallback) = Fulfilled a.
Proof. destruct body as [a|e]; simpl; eauto. Qed.

(** C6: [getLatestTelemetry] always resolves, in the HTTP adapter (plain and
    Lambda-proxy variant) and in the scan adapter; a transport failure, a
    response outside 2xx and a malformed payload (a body that is not JSON, the
    JSON [null], an object with neither [telemetry] nor [body]) all resolve
    with [null] in the HTTP adapter, and a failed scan or a scan result
    without [Items] resolves with the empty array. *)
Theorem fetch_never_raises `{Host} :
  (forall fetched, exists v, Api.getLatestTelemetry fetched = Fulfilled v)
  /\ (forall fetched, exists v, Api.getLatestTelemetry_proxy fetched = Fulfilled v)
  /\ (forall scanned, exists items, Dynamo.getLatestTelemetry scanned = Fulfilled items)
  /\ (forall e, Api.getLatestTelemetry (Rejected e) = Fulfilled null
                /\ Api.getLatestTelemetry_proxy (Rejected e) = Fulfilled null)
  /\ (forall r, not_2xx r ->
                Api.getLatestTelemetry (Fulfilled r) = Fulfilled null
                /\ Api.getLatestTelemetry_proxy (Fulfilled r) = Fulfilled null)
  /\ (forall r, (exists e, Api.json r = Rejected e) \/ Api.json r = Fulfilled null ->
                Api.getLatestTelemetry (Fulfilled r) = Fulfilled null
                /\ Api.getLatestTelemetry_proxy (Fulfilled r) = Fulfilled null)
  /\ (forall r props, Api.json r = Fulfilled (VObject props) ->
                      own props "telemetry" = None -> own props "body" = None ->
                Api.getLatestTelemetry (Fulfilled r) = Fulfilled null
                /\ Api.getLatestTelemetry_proxy (Fulfilled r) = Fulfilled null)
  /\ (forall e, Dynamo.getLatestTelemetry (Dynamo.ScanFailed e) = Fulfilled [])
  /\ Dynamo.getLatestTelemetry (Dynamo.ScanResult None) = Fulfilled []
  /\ Dynamo.getLatestTelemetry (Dynamo.ScanResult (Some [])) = Fulfilled [].
Proof.
  split; [intros fetched; apply try_catch_fulfils|].
  split; [intros fetched; apply try_catch_fulfils|].
  split; [intros scanned; apply try_catch_fulfils|].
  split; [intros e; split; reflexivity|].
  split; [|split; [|split; [|repeat split]]].
  - intros r N. unfold not_2xx in N.
    unfold Api.getLatestTelemetry, Api.getLatestTelemetry_proxy, Api.check_ok.
    simpl. rewrite N. split; reflexivity.
  - intros r J.
    unfold Api.getLatestTelemetry, Api.getLatestTelemetry_proxy, Api.check_ok.
    simpl. destruct (Api.ok r); [|split; reflexivity]. simpl.
    destruct J as [[e ->]| ->]; split; reflexivity.
  - intros r props J T B.
    unfold Api.getLatestTelemetry, Api.getLatestTelemetry_proxy, Api.check_ok.
    simpl. destruct (Api.ok r); [|split; reflexivity]. simpl.
    rewrite J. simpl. unfold get_object. rewrite T, B. split; reflexivity.
Qed.

Lemma fetch_never_raises_witness :
  let forbidden := {| Api.status := 403; Api.statusText := "Forbidden";
                      Api.json := Fulfilled (VObject [("message"%string, str "no")]) |} in
  let garbled := {| Api.status := 200; Api.statusText := "OK";
                    Api.json := Rejected (ErrorObject "Unexpected token <") |} in
  Api.getLatestTelemetry (Fulfilled forbidden) = Fulfilled null
  /\ Api.getLatestTelemetry (Fulfilled garbled) = Fulfilled null.
Proof.
  cbn zeta.
  pose proof (@fetch_never_raises Sample.host) as (_ & _ & _ & _ & S & J & _).
  split.
  - apply S. reflexivity.
  - apply J. left. eexists. reflexivity.
Defined.

End Adapter.

(** ** The polling hook *)

Module Polling.
Import Js Async Hook Notions.

Lemma api_resolves (fetched : Api.FetchOutcome) :
  exists data, Api.getLatestTelemetry fetched = Fulfilled data.
Proof. apply Adapter.try_catch_fulfils. Qed.

(** One cycle of the wired hook never records an error and never clears
    [isConnected]; a cycle that settles while mounted sets it. *)
Lemma poll_api_step (isMounted : bool) (fetched : Api.FetchOutcome) (s : State) :
  let s' := poll_api isMounted fetched s in
  (error s = None -> error s' = None)
  /\ (isConnected s = true -> isConnected s' = true)
  /\ (isMounted = true -> isConnected s' = true).
Proof.
  cbn zeta. unfold poll_api. destruct (api_resolves fetched) as (data & ->).
  unfold pollTelemetry. destruct isMounted; simpl; [|now auto].
  destruct (truthy data); simpl; auto.
Qed.

Lemma run_api_error (cycles : list (bool * Api.FetchOutcome)) (s : State) :
  error s = None -> error (run_api cycles s) = None.
Proof.
  revert s. induction cycles as [|[m f] rest IH]; intros s E; [exact E|].
  apply IH. exact (proj1 (poll_api_step m f s) E).
Qed.

Lemma run_api_stays_connected (cycles : list (bool * Api.FetchOutcome)) (s : State) :
  isConnected s = true -> isConnected (run_api cycles s) = true.
Proof.
  revert s. induction cycles as [|[m f] rest IH]; intros s E; [exact E|].
  apply IH. exact (proj1 (proj2 (poll_api_step m f s)) E).
Qed.

Lemma run_api_connects (cycles : list (bool * Api.FetchOutcome)) (s : State) :
  existsb fst cycles = true -> isConnected (run_api cycles s) = true.
Proof.
  revert s. induction cycles as [|[m f] rest IH]; intros s E; [discriminate E|].
  cbn [existsb fst] in E. destruct m.
  - change (run_api ((true, f) :: rest) s)
      with (run_api rest (poll_api true f s)).
    apply run_api_stays_connected.
    exact (proj2 (proj2 (poll_api_step true f s)) eq_refl).
  - now apply IH.
Qed.

(** C7: a cycle that settles, while the hook is mounted, with an empty
    result ([null] from the HTTP adapter, no records from the scan adapter)
    leaves the published telemetry as it was and sets the connection state to
    connected, with no error recorded. *)
Theorem empty_poll_keeps_telemetry `{Host} (s : State) (now : Z) :
  let s1 := pollTelemetry true (Fulfilled null) s in
  let s2 := pollTelemetry_dynamo true (Fulfilled []) now s in
  (telemetry s1 = telemetry s /\ isConnected s1 = true /\ error s1 = None)
  /\ (telemetry s2 = telemetry s /\ isConnected s2 = true /\ error s2 = None).
Proof. repeat split. Qed.

(** C8: a cycle in which the adapter call rejects, while the hook is
    mounted, leaves the published telemetry as it was, sets the connection
    state to disconnected and records the message of the error: the message
    of the [Error] that was thrown, and the text Unknown error when what was
    thrown is not an [Error]; any later cycle that resolves with data sets
    the connection state back to connected, clears the error and publishes
    the new telemetry. *)
Theorem error_isolation `{Host} (s : State) (err : Thrown) :
  let s1 := pollTelemetry true (Rejected err) s in
  let s1' := pollTelemetry_dynamo true (Rejected err) 0 s in
  (telemetry s1 = telemetry s /\ isConnected s1 = false
   /\ (forall message, err = ErrorObject message -> error s1 = Some message)
   /\ (err = NonError -> error s1 = Some "Unknown error"%string))
  /\ s1' = s1
  /\ (forall later data, truthy data = true ->
        pollTelemetry true (Fulfilled data) later
        = {| telemetry := data; isConnected := true; error := None |})
  /\ (forall later item items now,
        pollTelemetry_dynamo true (Fulfilled (item :: items)) now later
        = {| telemetry := Dynamo.transformMavlinkToTelemetry (item :: items) now;
             isConnected := true; error := None |}).
Proof.
  cbn zeta. split; [|split; [reflexivity|split]].
  - split; [reflexivity|]. split; [reflexivity|].
    split; [intros message ->|intros ->]; reflexivity.
  - intros later data T. unfold pollTelemetry. simpl. now rewrite T.
  - reflexivity.
Qed.

Lemma error_isolation_witness :
  let published := VObject [("battery"%string, num 60)] in
  let fresh := VObject [("battery"%string, num 59)] in
  let s := {| telemetry := published; isConnected := true; error := None |} in
  let s1 := pollTelemetry true (Rejected (ErrorObject "Failed to fetch")) s in
  let s2 := pollTelemetry true (Fulfilled fresh) s1 in
  (telemetry s1 = published /\ isConnected s1 = false
   /\ error s1 = Some "Failed to fetch"%string)
  /\ s2 = {| telemetry := fresh; isConnected := true; error := None |}.
Proof.
  cbn zeta.
  pose proof (@error_isolation Sample.host
                {| telemetry := VObject [("battery"%string, num 60)];
                   isConnected := true; error := None |}
                (ErrorObject "Failed to fetch")) as ((T & C & E & _) & _ & P & _).
  split; [|apply P; reflexivity].
  split; [exact T|]. split; [exact C|]. now apply E.
Defined.

(** C10: in the hook as wired to the HTTP adapter, [getLatestTelemetry]
    resolves whatever the network does, so the catch branch of
    [pollTelemetry] is never taken: over any run of cycles no error is ever
    recorded, [isConnected] once true stays true, and it is true as soon as
    one cycle has settled while the hook was mounted, even if every request
    failed. *)
Theorem disconnected_is_unreachable :
  (forall fetched, exists data, Api.getLatestTelemetry fetched = Fulfilled data)
  /\ (forall cycles, error (run_api cycles initial) = None)
  /\ (forall cycles s, isConnected s = true ->
                       isConnected (run_api cycles s) = true)
  /\ (forall cycles, existsb fst cycles = true ->
                     isConnected (run_api cycles initial) = true).
Proof.
  split; [exact api_resolves|]. split; [|split].
  - intros cycles. now apply run_api_error.
  - exact run_api_stays_connected.
  - intros cycles. apply run_api_connects.
Qed.

Lemma disconnected_is_unreachable_witness :
  let offline : Api.FetchOutcome := Rejected (ErrorObject "Failed to fetch") in
  let s := run_api [(true, offline); (true, offline); (true, offline)] initial in
  isConnected s = true /\ error s = None.
Proof.
  cbn zeta.
  pose proof disconnected_is_unreachable as (_ & E & _ & C).
  split; [apply C; reflexivity | apply E].
Defined.

End Polling.

(** ** What the scan adapter keeps *)

Module Retention.
Import Js Async Dynamo Notions Kept JsFacts Fusion Pipeline.

Section WithHost.
Context `{Host}.

Lemma num_eqb_sym (a b : JsNum) : num_eqb a b = num_eqb b a.
Proof. destruct a, b; simpl; auto using Qeq_bool_comm. Qed.

Lemma same_value_zero_sym (a b : JsVal) :
  same_value_zero a b = same_value_zero b a.
Proof.
  destruct a as [| |x|[| |p|]|x]; destruct b as [| |y|[| |q|]|y];
    try reflexivity.
  - destruct x, y; reflexivity.
  - simpl. apply Qeq_bool_comm.
  - simpl. apply String.eqb_sym.
Qed.

Lemma has_snoc (m : list (JsVal * Item)) (k k' : JsVal) (x : Item) :
  has (m ++ [(k', x)]) k = has m k || same_value_zero k' k.
Proof. unfold has. rewrite existsb_app. simpl. now rewrite orb_false_r. Qed.

Lemma distinct_snoc (m : list (JsVal * Item)) (k : JsVal) (x : Item) :
  distinct m -> has m k = false -> distinct (m ++ [(k, x)]).
Proof.
  induction m as [|e rest IH]; intros D N; simpl.
  - split; [reflexivity | exact I].
  - destruct D as [F D]. unfold has in N. simpl in N.
    apply orb_false_iff in N as [N1 N2]. split.
    + rewrite has_snoc, F. simpl. now rewrite same_value_zero_sym.
    + now apply IH.
Qed.

(** One step of the loop keeps the map duplicate-free and well keyed. *)
Lemma step_distinct (m : list (JsVal * Item)) (item : Item) :
  distinct m ->
  distinct (if has m (type_of item) then m else set_new m (type_of item) item).
Proof.
  intros D. destruct (has m (type_of item)) eqn:E; [exact D|].
  now apply distinct_snoc.
Qed.

Lemma step_well_keyed (m : list (JsVal * Item)) (item : Item) :
  well_keyed m ->
  well_keyed (if has m (type_of item) then m else set_new m (type_of item) item).
Proof.
  intros W. destruct (has m (type_of item)); [exact W|].
  unfold set_new, well_keyed. rewrite Forall_app. split; [exact W|].
  now repeat constructor.
Qed.

Lemma group_distinct (l : list Item) (m : list (JsVal * Item)) :
  distinct m -> distinct (group l m).
Proof.
  revert m. induction l as [|item rest IH]; intros m D; cbn [group]; [exact D|].
  pose proof (step_distinct m item D) as D'.
  destruct (has _ (JStr "battery") && has _ (JStr "altitude")
            && has _ (JStr "state")); [exact D'|now apply IH].
Qed.

Lemma group_well_keyed (l : list Item) (m : list (JsVal * Item)) :
  well_keyed m -> well_keyed (group l m).
Proof.
  revert m. induction l as [|item rest IH]; intros m W; cbn [group]; [exact W|].
  pose proof (step_well_keyed m item W) as W'.
  destruct (has _ (JStr "battery") && has _ (JStr "altitude")
            && has _ (JStr "state")); [exact W'|now apply IH].
Qed.

Lemma has_false (m : list (JsVal * Item)) (k : JsVal) (e : JsVal * Item) :
  has m k = false -> In e m -> same_value_zero e.1 k = false.
Proof.
  unfold has. intros N I. apply not_true_is_false. intros T.
  assert (existsb (fun e => same_value_zero e.1 k) m = true) as X
    by (apply existsb_exists; eauto).
  congruence.
Qed.

Lemma distinct_pair (m : list (JsVal * Item)) :
  distinct m ->
  forall i j e1 e2, m !! i = Some e1 -> m !! j = Some e2 -> (i < j)%nat ->
                    same_value_zero e1.1 e2.1 = false.
Proof.
  induction m as [|e rest IH]; intros D i j e1 e2 L1 L2 Lt; [discriminate L1|].
  destruct D as [F D]. destruct j as [|j]; [lia|]. simpl in L2.
  destruct i as [|i]; simpl in L1.
  - injection L1 as <-. rewrite same_value_zero_sym.
    apply (has_false rest); [exact F|].
    apply list_elem_of_In. eapply list_elem_of_lookup_2. exact L2.
  - apply (IH D i j); [assumption..|lia].
Qed.

(** Every entry the loop adds comes from the list it walks. *)
Lemma group_from (l : list Item) (m : list (JsVal * Item)) (e : JsVal * Item) :
  In e (group l m) -> In e m \/ In e.2 l.
Proof.
  revert m. induction l as [|item rest IH]; intros m I; cbn [group] in I;
    [now left|].
  assert (forall e', In e' (if has m (type_of item) then m
                            else set_new m (type_of item) item) ->
                     In e' m \/ e'.2 = item) as S.
  { intros e' I'. destruct (has m (type_of item)); [now left|].
    unfold set_new in I'. apply in_app_or in I' as [I'|[<-|[]]]; auto. }
  destruct (has _ (JStr "battery") && has _ (JStr "altitude")
            && has _ (JStr "state")).
  - destruct (S e I) as [?|E]; [now left|]. right. left. now symmetry.
  - destruct (IH _ I) as [I'|I']; [|right; now right].
    destruct (S e I') as [?|E]; [now left|]. right. left. now symmetry.
Qed.

Lemma group_length (l : list Item) (m : list (JsVal * Item)) :
  (length (group l m) <= length m + length l)%nat.
Proof.
  revert m. induction l as [|item rest IH]; intros m; cbn [group length]; [lia|].
  set (m' := if has m (type_of item) then m else set_new m (type_of item) item).
  assert (length m' <= S (length m))%nat as L.
  { subst m'. destruct (has m (type_of item)); [lia|].
    unfold set_new. rewrite length_app. simpl. lia. }
  destruct (has m' (JStr "battery") && has m' (JStr "altitude")
            && has m' (JStr "state")); [lia|].
  specialize (IH m'). lia.
Qed.

Lemma filed_asb_spec (k : string) (item : Item) :
  filed_asb k item = true <-> filed_as k item.
Proof.
  unfold filed_asb, filed_as. destruct (type_of item) as [| | | |s];
    try (split; discriminate).
  rewrite String.eqb_eq. split; [now intros -> | now intros [= ->]].
Qed.

(** A list with a record filed as [k], split at the first one. *)
Lemma first_filed (k : string) (l : list Item) (x : Item) :
  In x l -> filed_as k x ->
  exists l1 b l2, l = l1 ++ b :: l2 /\ Forall (fun a => ~ filed_as k a) l1
                  /\ filed_as k b.
Proof.
  induction l as [|a rest IH]; intros I F; [destruct I|].
  destruct (filed_asb k a) eqn:E.
  - apply filed_asb_spec in E. exists [], a, rest. repeat split; [constructor|exact E].
  - assert (~ filed_as k a) as N.
    { intros Fa. apply filed_asb_spec in Fa. congruence. }
    destruct I as [->|I]; [contradiction|].
    destruct (IH I F) as (l1 & b & l2 & -> & N1 & Fb).
    exists (a :: l1), b, l2. repeat split; [now constructor|exact Fb].
Qed.

Lemma none_filed_has (k : string) (m : list (JsVal * Item)) :
  none_filed k m -> has m (JStr k) = false.
Proof.
  intros C. apply has_string. eapply Forall_impl; [exact C|].
  intros [v i] [E N] B. apply N. unfold filed_as. simpl in *. congruence.
Qed.

Lemma not_complete (k : string) (m : list (JsVal * Item)) :
  main_type k -> has m (JStr k) = false -> complete m = false.
Proof.
  unfold complete. intros [->|[->| ->]] ->; simpl;
    rewrite ?andb_false_r; reflexivity.
Qed.

(** The loop reaches the first record filed as a main type and keeps it. *)
Lemma group_files_first_main (k : string) (l1 l2 : list Item) (b : Item)
    (m : list (JsVal * Item)) :
  main_type k -> none_filed k m -> Forall (fun a => ~ filed_as k a) l1 ->
  filed_as k b ->
  exists mid ext, group (l1 ++ b :: l2) m = mid ++ (JStr k, b) :: ext
                  /\ none_filed k mid.
Proof.
  intros M C N B. revert m C.
  induction N as [|a rest Na _ IH]; intros m C; cbn [app group].
  - rewrite B, (none_filed_has k m C). fold (complete (set_new m (JStr k) b)).
    unfold set_new. destruct (complete (m ++ [(JStr k, b)])).
    + now exists m, [].
    + destruct (group_extends l2 (m ++ [(JStr k, b)])) as (ext & ->).
      exists m, ext. split; [|exact C]. now rewrite <- app_assoc.
  - set (m' := if has m (type_of a) then m else set_new m (type_of a) a).
    assert (none_filed k m') as C'.
    { subst m'. destruct (has m (type_of a)); [exact C|].
      unfold set_new, none_filed. rewrite Forall_app. split; [exact C|].
      now repeat constructor. }
    fold (complete m').
    rewrite (not_complete k m' M (none_filed_has k m' C')). now apply IH.
Qed.

Lemma has_middle (k : string) (mid ext : list (JsVal * Item)) (b : Item) :
  has (mid ++ (JStr k, b) :: ext) (JStr k) = true.
Proof.
  unfold has. rewrite existsb_app. simpl. rewrite String.eqb_refl.
  now rewrite orb_true_r.
Qed.

Lemma group_has_main (k : string) (l : list Item) (x : Item) :
  main_type k -> In x l -> filed_as k x -> has (group l []) (JStr k) = true.
Proof.
  intros M I F. destruct (first_filed k l x I F) as (l1 & b & l2 & -> & N & B).
  destruct (group_files_first_main k l1 l2 b [] M ltac:(constructor) N B)
    as (mid & ext & -> & _).
  apply has_middle.
Qed.

(** Once the map is complete the loop has stopped: what follows in the list
    is not examined. *)
Lemma group_stops (l1 l2 : list Item) (m : list (JsVal * Item)) :
  complete m = false -> complete (group l1 m) = true ->
  group (l1 ++ l2) m = group l1 m.
Proof.
  revert m. induction l1 as [|item rest IH]; intros m N C; cbn [app group] in *.
  - congruence.
  - set (m' := if has m (type_of item) then m
               else set_new m (type_of item) item) in *.
    fold (complete m') in *. destruct (complete m') eqn:E; [reflexivity|].
    now apply IH.
Qed.

Lemma sorted_after (l1 l2 : list Item) (b : Item) :
  StronglySorted not_older (l1 ++ b :: l2) -> Forall (not_older b) l2.
Proof.
  induction l1 as [|a rest IH]; simpl; intros S.
  - now apply StronglySorted_inv in S as [_ F].
  - apply StronglySorted_inv in S as [S _]. now apply IH.
Qed.

Lemma kept_main (k : string) (mid ext : list (JsVal * Item)) (b : Item) :
  k <> ""%string -> none_filed k mid -> kind_is k b ->
  data_of_type (values (mid ++ (JStr k, b) :: ext)) k = data b.
Proof.
  intros NE C K. unfold values. rewrite map_app. cbn [map snd].
  apply data_of_type_first; [|exact K].
  unfold none_of_kind. apply Forall_map. eapply Forall_impl; [exact C|].
  intros [v i] [_ N] Ki. apply N. now apply kind_is_filed.
Qed.

Lemma main_type_named (k : string) : main_type k -> k <> ""%string.
Proof. intros [->|[->| ->]]; discriminate. Qed.

End WithHost.

(** X1: the records [getLatestTelemetry] resolves with are records of the
    scan, no more of them than were scanned, and no two of them are filed
    under the same type. *)
Theorem kept_records_one_per_type `{Host} (scanned : ScanOutcome) :
  exists kept,
    getLatestTelemetry scanned = Fulfilled kept
    /\ one_per_type kept
    /\ (forall Items, scanned = ScanResult (Some Items) ->
          (forall x, In x kept -> In x Items)
          /\ (length kept <= length Items)%nat).
Proof.
  assert (forall Items, one_per_type (latest_of_each_type Items)) as O.
  { intros Items i j a b La Lb N. unfold latest_of_each_type, values in La, Lb.
    rewrite list_lookup_fmap in La, Lb.
    destruct (group (sort Items) [] !! i) as [e1|] eqn:E1; [|discriminate La].
    destruct (group (sort Items) [] !! j) as [e2|] eqn:E2; [|discriminate Lb].
    injection La as <-. injection Lb as <-.
    pose proof (group_distinct (sort Items) [] I) as D.
    pose proof (group_well_keyed (sort Items) [] ltac:(constructor)) as W.
    unfold well_keyed in W. rewrite List.Forall_forall in W.
    rewrite <- (W e1), <- (W e2)
      by (apply list_elem_of_In; eapply list_elem_of_lookup_2; eassumption).
    destruct (Nat.lt_total i j) as [L|[L|L]]; [|contradiction|].
    - exact (distinct_pair _ D i j e1 e2 E1 E2 L).
    - rewrite same_value_zero_sym. exact (distinct_pair _ D j i e2 e1 E2 E1 L). }
  assert (one_per_type []) as O0 by (intros i j a b L; discriminate L).
  destruct scanned as [e|[[|i rest]|]]; eexists; (split; [reflexivity|]);
    (split; [first [exact O0 | apply O]|]); intros Items [= <-].
  - split; [intros x []|simpl; lia].
  - split.
    + intros x Ix. unfold latest_of_each_type, values in Ix.
      apply in_map_iff in Ix as (e & <- & Ie).
      apply group_from in Ie as [[]|Ie].
      exact (Permutation_in _ (sort_perm _) Ie).
    + unfold latest_of_each_type, values. rewrite length_map.
      pose proof (group_length (sort (i :: rest)) []) as L.
      rewrite (Permutation_length (sort_perm (i :: rest))) in L. simpl in *. lia.
Qed.

(** X2: a non-empty scan with numeric timestamps resolves with a
    non-empty list whose first record is a record of the scan that no
    record of the scan is more recent than. *)
Theorem most_recent_record_first `{Host} (Items : list Item) :
  timed Items -> Items <> [] ->
  exists top rest,
    getLatestTelemetry (ScanResult (Some Items)) = Fulfilled (top :: rest)
    /\ In top Items
    /\ (forall x, In x Items -> not_older top x).
Proof.
  intros T N. pose proof (sort_perm Items) as P.
  pose proof (sort_sorted Items T) as S.
  destruct (sort Items) as [|top l'] eqn:E.
  { apply Permutation_nil in P. contradiction. }
  assert (exists ext, group (top :: l') [] = (type_of top, top) :: ext) as (ext & G).
  { assert (group (top :: l') []
            = if complete [(type_of top, top)] then [(type_of top, top)]
              else group l' [(type_of top, top)]) as -> by reflexivity.
    destruct (complete [(type_of top, top)]); [now exists []|].
    destruct (group_extends l' [(type_of top, top)]) as (ext & ->). now exists ext. }
  exists top, (values ext). split; [|split].
  - destruct Items as [|i rest]; [contradiction|].
    change (getLatestTelemetry (ScanResult (Some (i :: rest))))
      with (Fulfilled (latest_of_each_type (i :: rest))).
    unfold latest_of_each_type. now rewrite E, G.
  - apply (Permutation_in top P). now left.
  - intros x Ix. apply (Permutation_in x (Permutation_sym P)) in Ix.
    apply StronglySorted_inv in S as [_ F]. destruct Ix as [<-|Ix].
    + assert (In top Items) as It by (apply (Permutation_in top P); now left).
      unfold timed in T. rewrite List.Forall_forall in T.
      destruct (T top It) as (q & Q). exists q, q. repeat split; try assumption.
      apply Qle_refl.
    + rewrite List.Forall_forall in F. now apply F.
Qed.

Lemma most_recent_record_first_witness :
  exists top rest,
    getLatestTelemetry (H := Sample.host)
      (ScanResult (Some [Sample.battery_remaining 100 50;
                         Sample.state 200 true 4])) = Fulfilled (top :: rest)
    /\ In top [Sample.battery_remaining 100 50; Sample.state 200 true 4]
    /\ (forall x, In x [Sample.battery_remaining 100 50; Sample.state 200 true 4] ->
                  not_older (H := Sample.host) top x).
Proof.
  apply (@most_recent_record_first Sample.host).
  - repeat constructor; eexists; vm_compute; reflexivity.
  - discriminate.
Defined.

(** X3: a scan that holds a record filed as battery, altitude or state
    resolves with a record filed under that type: the early exit never drops
    one of the three main types. *)
Theorem main_types_are_kept `{Host} (k : string) (Items : list Item) (x : Item) :
  main_type k -> In x Items -> filed_as k x ->
  exists kept y,
    getLatestTelemetry (ScanResult (Some Items)) = Fulfilled kept
    /\ In y kept /\ filed_as k y.
Proof.
  intros M I F. exists (latest_of_each_type Items).
  apply (Permutation_in x (Permutation_sym (sort_perm Items))) in I as Is.
  destruct (first_filed k _ x Is F) as (l1 & b & l2 & E & N & B).
  destruct (group_files_first_main k l1 l2 b [] M ltac:(constructor) N B)
    as (mid & ext & G & _).
  exists b. split; [|split; [|exact B]].
  - destruct Items; [destruct I|reflexivity].
  - unfold latest_of_each_type, values. rewrite E, G, map_app.
    apply in_or_app. right. now left.
Qed.

Lemma main_types_are_kept_witness :
  exists kept y,
    getLatestTelemetry (H := Sample.host)
      (ScanResult (Some [Sample.battery_remaining 300 50;
                         Sample.state 200 true 4;
                         Sample2.altitude_amsl 100 12])) = Fulfilled kept
    /\ In y kept /\ filed_as "altitude" y.
Proof.
  apply (@main_types_are_kept Sample.host "altitude"%string _
           (Sample2.altitude_amsl 100 12)).
  - right. left. reflexivity.
  - simpl. tauto.
  - vm_compute. reflexivity.
Defined.

(** X4: most recent wins for each main type: in a scan with numeric
    timestamps, the fragment of kind battery, altitude or state that is
    strictly more recent than every other record filed under that type is
    the one whose payload the fusion reads for that type. *)
Theorem most_recent_of_main_type `{Host} (k : string) (pre post : list Item)
    (b : Item) :
  main_type k -> timed (pre ++ b :: post) -> kind_is k b ->
  Forall (fun a => filed_as k a -> older a b) (pre ++ post) ->
  exists kept,
    getLatestTelemetry (ScanResult (Some (pre ++ b :: post))) = Fulfilled kept
    /\ data_of_type kept k = data b.
Proof.
  intros M T K O. exists (latest_of_each_type (pre ++ b :: post)).
  split; [now destruct pre|]. unfold latest_of_each_type.
  destruct (sort_split pre post b k T O) as (l1 & l2 & -> & N).
  pose proof (main_type_named k M) as NE.
  assert (filed_as k b) as B by now apply kind_is_filed.
  destruct (group_files_first_main k l1 l2 b [] M ltac:(constructor) N B)
    as (mid & ext & -> & C).
  now apply kept_main.
Qed.

Lemma most_recent_of_main_type_witness :
  exists kept,
    getLatestTelemetry (H := Sample.host)
      (ScanResult (Some [Sample.state 100 false 0; Sample.state 200 true 4]))
    = Fulfilled kept
    /\ data_of_type kept "state" = data (Sample.state 200 true 4).
Proof.
  apply (@most_recent_of_main_type Sample.host "state"%string
           [Sample.state 100 false 0] [] (Sample.state 200 true 4)).
  - right. right. reflexivity.
  - repeat constructor; eexists; vm_compute; reflexivity.
  - vm_compute. reflexivity.
  - repeat constructor. intros _. exists 100%Q, 200%Q.
    repeat split; vm_compute; reflexivity.
Defined.

(** X5: the early exit drops other types: in a scan with numeric
    timestamps that holds records filed as battery, altitude and state, a
    type whose records are all strictly older than those three records has
    no record in the result. *)
Theorem older_type_is_dropped `{Host} (k : string) (Items : list Item)
    (b a s : Item) :
  timed Items ->
  In b Items -> filed_as "battery" b ->
  In a Items -> filed_as "altitude" a ->
  In s Items -> filed_as "state" s ->
  (forall x, In x Items -> filed_as k x -> older x b /\ older x a /\ older x s) ->
  exists kept,
    getLatestTelemetry (ScanResult (Some Items)) = Fulfilled kept
    /\ (forall y, In y kept -> ~ filed_as k y).
Proof.
  intros T Ib Fb Ia Fa Is Fs O. exists (latest_of_each_type Items).
  split; [destruct Items; [destruct Ib|reflexivity]|].
  pose proof (sort_perm Items) as P. pose proof (sort_sorted Items T) as S.
  assert (forall y, In y (values (group (sort Items) [])) -> In y (sort Items)) as Sub.
  { intros y Iy. unfold values in Iy. apply in_map_iff in Iy as (e & <- & Ie).
    now apply group_from in Ie as [[]|Ie]. }
  intros y Iy Fy. unfold latest_of_each_type in Iy.
  pose proof (Sub y Iy) as Iys.
  destruct (first_filed k _ y Iys Fy) as (l1 & x0 & l2 & E & N & F0).
  assert (In x0 Items) as I0.
  { apply (Permutation_in x0 P). rewrite E. apply in_or_app. right. now left. }
  destruct (O x0 I0 F0) as (Ob & Oa & Os).
  rewrite E in S. pose proof (sorted_after _ _ _ S) as After.
  rewrite List.Forall_forall in After.
  assert (forall z, In z Items -> older x0 z -> In z l1) as Before.
  { intros z Iz (p & q & Px & Qz & L).
    apply (Permutation_in z (Permutation_sym P)) in Iz. rewrite E in Iz.
    apply in_app_or in Iz as [Iz|[<-|Iz]]; [exact Iz| |].
    - rewrite Px in Qz. injection Qz as <-. lra.
    - destruct (After z Iz) as (p' & q' & Px' & Qz' & L').
      rewrite Px in Px'. injection Px' as <-.
      rewrite Qz in Qz'. injection Qz' as <-. lra. }
  assert (complete (group l1 []) = true) as C.
  { unfold complete.
    rewrite (group_has_main "battery" l1 b), (group_has_main "altitude" l1 a),
      (group_has_main "state" l1 s); auto; unfold main_type; auto. }
  rewrite E, (group_stops l1 (x0 :: l2) [] eq_refl C) in Iy.
  unfold values in Iy. apply in_map_iff in Iy as (e & <- & Ie).
  apply group_from in Ie as [[]|Ie].
  rewrite List.Forall_forall in N. exact (N _ Ie Fy).
Qed.

Lemma older_type_is_dropped_witness :
  exists kept,
    getLatestTelemetry (H := Sample.host)
      (ScanResult (Some [Sample2.position_fix 100 1 2;
                         Sample.battery_remaining 300 50;
                         Sample.state 200 true 4;
                         Sample2.altitude_amsl 250 12])) = Fulfilled kept
    /\ (forall y, In y kept -> ~ filed_as "gps" y).
Proof.
  apply (@older_type_is_dropped Sample.host "gps"%string _
           (Sample.battery_remaining 300 50) (Sample2.altitude_amsl 250 12)
           (Sample.state 200 true 4)).
  - repeat constructor; eexists; vm_compute; reflexivity.
  - simpl. tauto.
  - vm_compute. reflexivity.
  - simpl. tauto.
  - vm_compute. reflexivity.
  - simpl. tauto.
  - vm_compute. reflexivity.
  - intros x [<-|[<-|[<-|[<-|[]]]]] F; try (vm_compute in F; discriminate F).
    repeat split; eexists _, _; (split; [vm_compute; reflexivity|]);
      (split; [vm_compute; reflexivity|]); reflexivity.
Defined.

(** X6: the sort rearranges the records of the scan without adding or
    losing one, and on numeric timestamps leaves every record at least as
    recent as all the records after it. *)
Theorem sort_is_descending `{Host} (Items : list Item) :
  Permutation (sort Items) Items
  /\ (timed Items -> StronglySorted not_older (sort Items)).
Proof. split; [apply sort_perm | apply sort_sorted]. Qed.

Lemma sort_is_descending_witness :
  StronglySorted (not_older (H := Sample.host))
    (sort (H := Sample.host)
       [Sample.battery_remaining 100 50; Sample.state 200 true 4]).
Proof.
  apply (@sort_is_descending Sample.host).
  repeat constructor; eexists; vm_compute; reflexivity.
Defined.

Lemma kept_records_one_per_type_witness :
  exists kept,
    getLatestTelemetry (H := Sample.host)
      (ScanResult (Some [Sample.battery_remaining 100 50;
                         Sample.battery_remaining 200 60])) = Fulfilled kept
    /\ one_per_type kept
    /\ (forall x, In x kept ->
          In x [Sample.battery_remaining 100 50; Sample.battery_remaining 200 60])
    /\ (length kept <= 2)%nat.
Proof.
  destruct (@kept_records_one_per_type Sample.host
              (ScanResult (Some [Sample.battery_remaining 100 50;
                                 Sample.battery_remaining 200 60])))
    as (kept & E & O & S).
  exists kept. destruct (S _ eq_refl) as [S1 S2]. now repeat split.
Defined.

End Retention.

(** ** More about the fused object *)

Module FusionMore.
Import Js Async Dynamo Notions Kept JsFacts Fusion.

Section WithHost.
Context `{Host}.

Lemma clamp_percent_range (x : JsNum) : percentage_or_NaN (clamp_percent x).
Proof.
  destruct x as [| |q|]; try exact I.
  - unfold clamp_percent. simpl. split; [apply Qle_refl | discriminate].
  - destruct (clamp_percent_fin q) as (r & -> & E). simpl. rewrite E.
    apply clamp_bounds.
  - unfold clamp_percent. simpl. split; [discriminate | apply Qle_refl].
Qed.


Lemma NumberToString_integer (z : Z) :
  Z.abs z < 2 ^ 53 -> NumberToString (Fin (inject_Z z)) = decimal z.
Proof.
  intros B. unfold NumberToString, is_small_integer. rewrite Qred_inject_Z.
  simpl. apply Z.ltb_lt in B. now rewrite B.
Qed.

(** The maximum of finite numbers and the clock. *)
Lemma Math_max_finite (xs : list JsNum) (c : Q) :
  Forall (fun x => exists q, x = Fin q) xs ->
  exists r, Math_max (xs ++ [Fin c]) = Fin r
            /\ (c <= r)%Q
            /\ (forall q, In (Fin q) xs -> (q <= r)%Q)
            /\ (r = c \/ In (Fin r) xs).
Proof.
  unfold Math_max.
  induction 1 as [|x rest (q & ->) _ (r & IH & C & U & A)]; cbn [foldr app].
  - exists c. repeat split; [apply Qle_refl | intros q [] | now left].
  - rewrite IH. unfold max2. destruct (num_ltb (Fin q) (Fin r)) eqn:L.
    + apply num_ltb_fin in L. exists r. repeat split; [exact C| |].
      * intros q' [[= ->]|I]; [now apply Qlt_le_weak | now apply U].
      * destruct A as [A|A]; [now left | right; now right].
    + apply num_ltb_fin_false in L. exists q.
      repeat split; [lra| |right; now left].
      intros q' [[= ->]|I]; [apply Qle_refl|]. specialize (U q' I). lra.
Qed.

Lemma data_of_type_app (items extra : list Item) (k : string) (f : Item) :
  In f items -> kind_is k f ->
  data_of_type (items ++ extra) k = data_of_type items k.
Proof.
  unfold data_of_type. intros I K.
  induction items as [|i rest IH]; [destruct I|]. simpl.
  destruct (strict_eq (data_field i "type") (JStr k)) eqn:E; [reflexivity|].
  destruct I as [->|I]; [|now apply IH].
  unfold kind_is in K. rewrite K in E. simpl in E.
  now rewrite String.eqb_refl in E.
Qed.

End WithHost.

(** X7: whatever the batch, the fused battery is a number in [[0,100]]
    or NaN. *)
Theorem battery_is_percentage_or_NaN `{Host} (items : list Item) (now : Z) :
  exists n, get (transformMavlinkToTelemetry items now) "battery" = VScalar (JNum n)
            /\ percentage_or_NaN n.
Proof.
  rewrite get_battery. eexists. split; [reflexivity|]. apply clamp_percent_range.
Qed.



(** X9: the droneId is read from the first record only: it is drone-1
    for the empty batch and when the first record has no [sysid] or a falsy
    one, and drone-<n> when the [sysid] is a non-zero integer [n] below 2^53
    in magnitude. *)
Theorem drone_id_from_first_record `{Host} (item : Item) (rest : list Item)
    (now : Z) :
  get (transformMavlinkToTelemetry [] now) "droneId" = str "drone-1"
  /\ get (transformMavlinkToTelemetry (item :: rest) now) "droneId"
     = get (transformMavlinkToTelemetry [item] now) "droneId"
  /\ (ToBoolean (attr item "sysid") = false ->
      get (transformMavlinkToTelemetry (item :: rest) now) "droneId"
      = str "drone-1")
  /\ (forall z, z <> 0 -> Z.abs z < 2 ^ 53 ->
        attr item "sysid" = JNum (Fin (inject_Z z)) ->
        get (transformMavlinkToTelemetry (item :: rest) now) "droneId"
        = str ("drone-" +:+ decimal z)).
Proof.
  rewrite !get_droneId. unfold droneId. repeat split.
  - intros F. unfold or. now rewrite F.
  - intros z NZ B ->. unfold or.
    assert (ToBoolean (JNum (Fin (inject_Z z))) = true) as ->.
    { simpl. destruct (Qeq_bool (inject_Z z) 0) eqn:E; [|reflexivity].
      apply Qeq_bool_eq in E. unfold Qeq in E. simpl in E. lia. }
    cbn [ToString]. now rewrite NumberToString_integer.
Qed.

Lemma drone_id_from_first_record_witness :
  get (transformMavlinkToTelemetry (H := Sample.host)
         [Sample.battery_remaining 100 60; Sample.state 110 true 4] 1000)
      "droneId" = str "drone-1"
  /\ get (transformMavlinkToTelemetry (H := Sample.host)
            [{| attrs := {[ "sysid"%string := JNum (Fin 7) ]}; data := None |}]
            1000) "droneId" = str "drone-7".
Proof.
  split.
  - apply (proj2 (proj2 (proj2 (@drone_id_from_first_record Sample.host
             (Sample.battery_remaining 100 60) [Sample.state 110 true 4] 1000)))
             1); [lia | reflexivity | vm_compute; reflexivity].
  - apply (proj2 (proj2 (proj2 (@drone_id_from_first_record Sample.host
             {| attrs := {[ "sysid"%string := JNum (Fin 7) ]}; data := None |}
             [] 1000))) 7); [lia | reflexivity | vm_compute; reflexivity].
Defined.

(** X10: on a batch with numeric timestamps the fused timestamp is the
    later of the clock reading and the most recent effective timestamp: it
    is not before the clock, not before any fragment, and it is the clock
    reading or the effective timestamp of a fragment. *)
Theorem timestamp_is_latest_or_clock `{Host} (items : list Item) (now : Z) :
  timed items ->
  exists r,
    get (transformMavlinkToTelemetry items now) "timestamp" = num r
    /\ (inject_Z now <= r)%Q
    /\ (forall item q, In item items -> time_of item = Fin q -> (q <= r)%Q)
    /\ (r = inject_Z now \/ exists item, In item items /\ time_of item = Fin r).
Proof.
  intros T. rewrite get_timestamp. unfold latestTimestamp.
  destruct (Math_max_finite (map ToNumber (map effective_timestamp items))
                            (inject_Z now)) as (r & -> & C & U & A).
  { rewrite map_map. apply Forall_map. exact T. }
  exists r. split; [reflexivity|]. split; [exact C|]. split.
  - intros item q I Q. apply U. rewrite map_map, <- Q.
    apply (in_map (fun i => ToNumber (effective_timestamp i))). exact I.
  - destruct A as [A|A]; [now left|right].
    rewrite map_map in A. apply in_map_iff in A as (item & E & I).
    now exists item.
Qed.

Lemma timestamp_is_latest_or_clock_witness :
  exists r,
    get (transformMavlinkToTelemetry (H := Sample.host)
           [Sample.battery_remaining 100 60; Sample.state 5000 true 4] 1000)
        "timestamp" = num r
    /\ (inject_Z 1000 <= r)%Q.
Proof.
  destruct (@timestamp_is_latest_or_clock Sample.host
              [Sample.battery_remaining 100 60; Sample.state 5000 true 4] 1000)
    as (r & E & C & _).
  - repeat constructor; eexists; vm_compute; reflexivity.
  - exists r. now split.
Defined.

(** X11: inside the fusion the first fragment of each kind wins: once a
    batch holds a fragment of each of the three kinds, fragments appended to
    it (and the clock) change none of droneId, position, battery, flightMode
    and armed. *)
Theorem later_fragments_are_ignored `{Host} (items extra : list Item)
    (b a s : Item) (now now' : Z) :
  In b items -> kind_is "battery" b ->
  In a items -> kind_is "altitude" a ->
  In s items -> kind_is "state" s ->
  let t := transformMavlinkToTelemetry items now in
  let t' := transformMavlinkToTelemetry (items ++ extra) now' in
  get t' "droneId" = get t "droneId"
  /\ get t' "position" = get t "position"
  /\ get t' "battery" = get t "battery"
  /\ get t' "flightMode" = get t "flightMode"
  /\ get t' "armed" = get t "armed".
Proof.
  intros Ib Kb Ia Ka Is Ks. cbn zeta.
  rewrite !get_droneId, !get_position, !get_battery, !get_flightMode, !get_armed.
  rewrite (data_of_type_app items extra _ b Ib Kb),
    (data_of_type_app items extra _ a Ia Ka),
    (data_of_type_app items extra _ s Is Ks).
  repeat split. destruct items; [destruct Ib|reflexivity].
Qed.

Lemma later_fragments_are_ignored_witness :
  let items := [Sample.battery_remaining 100 60;
                Sample.altitude_relative 105 12;
                Sample.state 110 true 5] in
  let t := transformMavlinkToTelemetry (H := Sample.host) items 1000 in
  let t' := transformMavlinkToTelemetry (H := Sample.host)
              (items ++ [Sample.battery_remaining 900 10;
                         Sample.state 950 false 0]) 2000 in
  get t' "battery" = get t "battery" /\ get t' "armed" = get t "armed".
Proof.
  cbn zeta.
  destruct (@later_fragments_are_ignored Sample.host
              [Sample.battery_remaining 100 60;
               Sample.altitude_relative 105 12;
               Sample.state 110 true 5]
              [Sample.battery_remaining 900 10; Sample.state 950 false 0]
              (Sample.battery_remaining 100 60)
              (Sample.altitude_relative 105 12)
              (Sample.state 110 true 5) 1000 2000
              ltac:(simpl; tauto) ltac:(vm_compute; reflexivity)
              ltac:(simpl; tauto) ltac:(vm_compute; reflexivity)
              ltac:(simpl; tauto) ltac:(vm_compute; reflexivity))
    as (_ & _ & B & _ & A).
  split; [exact B | exact A].
Defined.

End FusionMore.

(** ** More about the HTTP adapter *)

Module ApiMore.
Import Js Async Notions.

(** X12: whatever the network does, both variants of [getLatestTelemetry]
    resolve with [null] or with a truthy value, never with another falsy
    one. *)
Theorem result_is_null_or_truthy `{Host} (fetched : Api.FetchOutcome) :
  (exists v, Api.getLatestTelemetry fetched = Fulfilled v
             /\ (v = null \/ truthy v = true))
  /\ (exists v, Api.getLatestTelemetry_proxy fetched = Fulfilled v
                /\ (v = null \/ truthy v = true)).
Proof.
  assert (forall v, Api.or_null v = null \/ truthy (Api.or_null v) = true) as O.
  { intros v. unfold Api.or_null. destruct (truthy v) eqn:T; auto. }
  assert (forall (c : Completion Value),
            exists v, try_catch (t ← c; Fulfilled (Api.or_null t))
                                (fun _ => Fulfilled null) = Fulfilled v
                      /\ (v = null \/ truthy v = true)) as M.
  { intros [t|e]; simpl; eauto. }
  unfold Api.getLatestTelemetry, Api.getLatestTelemetry_proxy, Api.check_ok.
  destruct fetched as [r|e]; simpl; [|split; eauto].
  destruct (Api.ok r); simpl; [|split; eauto].
  destruct (Api.json r) as [data|e]; simpl; [|split; eauto].
  split; [apply M|].
  destruct (Api.member data "body") as [body|e]; simpl; [|eauto].
  destruct (truthy body); [|apply M].
  destruct body as [[| | | |s]| | |]; simpl;
    try (eexists; split; [reflexivity|]; solve [auto]).
  unfold Api.parse. destruct (JSON_parse s); simpl; [apply M|eauto].
Qed.

(** X13: on a response whose JSON is not an object with a truthy [body],
    the Lambda-proxy variant resolves exactly as the plain one; and a 2xx
    response whose JSON object holds a truthy [telemetry] (and no truthy
    [body]) makes both resolve with that telemetry. *)
Theorem variants_agree_without_body `{Host} (r : Api.Response) :
  (forall props, Api.json r = Fulfilled (VObject props) ->
                 truthy (get_object props "body") = false) ->
  Api.getLatestTelemetry_proxy (Fulfilled r) = Api.getLatestTelemetry (Fulfilled r)
  /\ (forall props t, Api.ok r = true ->
        Api.json r = Fulfilled (VObject props) ->
        get_object props "telemetry" = t -> truthy t = true ->
        Api.getLatestTelemetry (Fulfilled r) = Fulfilled t).
Proof.
  intros B. split.
  - unfold Api.getLatestTelemetry, Api.getLatestTelemetry_proxy, Api.check_ok.
    simpl. destruct (Api.ok r); simpl; [|reflexivity].
    destruct (Api.json r) as [data|e] eqn:J; simpl; [|reflexivity].
    destruct data as [[| | | |s]|l|props|n]; simpl; try reflexivity.
    now rewrite (B props eq_refl).
  - intros props t O J <- T.
    unfold Api.getLatestTelemetry, Api.check_ok. simpl. rewrite O, J. simpl.
    unfold Api.or_null. now rewrite T.
Qed.

Lemma variants_agree_without_body_witness :
  let telemetry := VObject [("battery"%string, num 60)] in
  let r := {| Api.status := 200; Api.statusText := "OK";
              Api.json := Fulfilled (VObject [("telemetry"%string, telemetry)]) |} in
  Api.getLatestTelemetry_proxy (H := Sample.host) (Fulfilled r)
  = Api.getLatestTelemetry (Fulfilled r)
  /\ Api.getLatestTelemetry (Fulfilled r) = Fulfilled telemetry.
Proof.
  cbn zeta.
  destruct (@variants_agree_without_body Sample.host
              {| Api.status := 200; Api.statusText := "OK";
                 Api.json := Fulfilled (VObject [("telemetry"%string,
                                                  VObject [("battery"%string, num 60)])]) |})
    as (A & S).
  - intros props [= <-]. reflexivity.
  - split; [exact A|]. eapply S; reflexivity.
Defined.

(** X14: the Lambda-proxy variant unwraps the envelope: on a 2xx response
    whose JSON object has a non-empty string [body] that parses to an object
    with a truthy [telemetry], it resolves with that telemetry, while the
    plain variant only looks at the envelope's own [telemetry]; a string
    [body] that does not parse resolves with [null]. *)
Theorem proxy_unwraps_body `{Host} (r : Api.Response)
    (envelope : list (string * Value)) (s : string) :
  Api.ok r = true -> Api.json r = Fulfilled (VObject envelope) ->
  get_object envelope "body" = str s -> s <> ""%string ->
  (forall inner t, JSON_parse s = Some (VObject inner) ->
      get_object inner "telemetry" = t -> truthy t = true ->
      Api.getLatestTelemetry_proxy (Fulfilled r) = Fulfilled t)
  /\ (JSON_parse s = None ->
      Api.getLatestTelemetry_proxy (Fulfilled r) = Fulfilled null)
  /\ Api.getLatestTelemetry (Fulfilled r)
     = Fulfilled (Api.or_null (get_object envelope "telemetry")).
Proof.
  intros O J B N.
  unfold Api.getLatestTelemetry, Api.getLatestTelemetry_proxy, Api.check_ok.
  simpl. rewrite O, J. simpl. rewrite B. simpl.
  apply String.eqb_neq in N. rewrite N. simpl. unfold Api.parse.
  split; [|split].
  - intros inner t -> <- T. simpl. unfold Api.or_null. now rewrite T.
  - intros ->. reflexivity.
  - reflexivity.
Qed.

Lemma proxy_unwraps_body_witness :
  let r := {| Api.status := 200; Api.statusText := "OK";
              Api.json := Fulfilled (VObject [("statusCode"%string, num 200);
                                              ("body"%string, str Sample2.body_text)]) |} in
  Api.getLatestTelemetry_proxy (H := Sample2.envelope_host) (Fulfilled r)
  = Fulfilled (VObject [("battery"%string, num 60)])
  /\ Api.getLatestTelemetry (Fulfilled r) = Fulfilled null.
Proof.
  cbn zeta.
  destruct (@proxy_unwraps_body Sample2.envelope_host
              {| Api.status := 200; Api.statusText := "OK";
                 Api.json := Fulfilled (VObject [("statusCode"%string, num 200);
                                                 ("body"%string, str Sample2.body_text)]) |}
              [("statusCode"%string, num 200); ("body"%string, str Sample2.body_text)]
              Sample2.body_text
              eq_refl eq_refl eq_refl ltac:(discriminate))
    as (U & _ & P).
  split; [|exact P].
  eapply U; reflexivity.
Defined.

End ApiMore.

(** ** The armed indicator *)

Module DisplayFacts.
Import Js Async Dynamo Notions Fusion Display.

(** X15: the hasStateData flag never overrides a reported armed value:
    when the telemetry has an [armed] that is neither [undefined] nor [null],
    [displayArmed] is that value whatever hasStateData holds; without any
    telemetry ([null]) [displayArmed] evaluates to true, and
    [ProfessionalTelemetry] renders its skeleton, with no status text. *)
Theorem display_follows_armed (telemetry : Value) :
  (~ is_nullish (get telemetry "armed") ->
   displayArmed telemetry = get telemetry "armed")
  /\ displayArmed null = VScalar (JBool true)
  /\ statusLabel null = None.
Proof.
  split; [|split; reflexivity].
  intros N. unfold displayArmed.
  destruct (is_exactly (get telemetry "hasStateData") true); [reflexivity|].
  unfold is_nullish in N.
  destruct (get telemetry "armed") as [[| | | |]| | |]; try reflexivity;
    exfalso; apply N; auto.
Qed.

Lemma display_follows_armed_witness :
  let t := VObject [("armed"%string, VScalar (JBool false));
                    ("hasStateData"%string, VScalar (JBool false))] in
  displayArmed t = VScalar (JBool false)
  /\ statusLabel t = Some "DISARMED*"%string.
Proof.
  cbn zeta. split; [|reflexivity].
  apply (proj1 (display_follows_armed
                  (VObject [("armed"%string, VScalar (JBool false));
                            ("hasStateData"%string, VScalar (JBool false))]))).
  intros [E|E]; discriminate E.
Defined.

(** X16: on an object fused by [transformMavlinkToTelemetry] the components
    show exactly the fused armed value and the status text never carries the
    asterisk; a batch without a state fragment shows DISARMED like a batch
    whose state fragment reports armed = false. *)
Theorem fused_status_has_no_asterisk `{Host} (items : list Item) (now : Z) :
  let t := transformMavlinkToTelemetry items now in
  (exists b, get t "armed" = VScalar (JBool b)
             /\ displayArmed t = VScalar (JBool b)
             /\ statusLabel t = Some (if b then "ARMED" else "DISARMED")%string)
  /\ (none_of_kind "state" items -> statusLabel t = Some "DISARMED"%string).
Proof.
  cbn zeta.
  assert (forall b, get (transformMavlinkToTelemetry items now) "armed"
                    = VScalar (JBool b) ->
                    displayArmed (transformMavlinkToTelemetry items now)
                    = VScalar (JBool b)
                    /\ statusLabel (transformMavlinkToTelemetry items now)
                       = Some (if b then "ARMED" else "DISARMED")%string) as S.
  { intros b A. unfold statusLabel, displayArmed.
    rewrite get_hasStateData, A. simpl. destruct b; split; reflexivity. }
  split.
  - eexists. split; [apply get_armed|]. apply S. apply get_armed.
  - intros N. apply (S false).
    now rewrite get_armed, (data_of_type_none _ _ N).
Qed.

Lemma fused_status_has_no_asterisk_witness :
  statusLabel (transformMavlinkToTelemetry (H := Sample.host)
                 [Sample.battery_remaining 100 60] 1000)
  = Some "DISARMED"%string.
Proof.
  apply (proj2 (@fused_status_has_no_asterisk Sample.host
                  [Sample.battery_remaining 100 60] 1000)).
  repeat constructor. vm_compute. discriminate.
Defined.

End DisplayFacts.

(** ** More about the polling hooks *)

Module PollingMore.
Import Js Async Hook HookRuns Notions Kept.

Lemma run_api_cons (c : bool * Api.FetchOutcome)
    (cycles : list (bool * Api.FetchOutcome)) (s : State) :
  run_api (c :: cycles) s = run_api cycles (poll_api c.1 c.2 s).
Proof. reflexivity. Qed.

(** What one cycle of the wired API hook does to the telemetry. *)
Lemma poll_api_telemetry (isMounted : bool) (fetched : Api.FetchOutcome)
    (s : State) :
  telemetry (poll_api isMounted fetched s) = telemetry s
  \/ truthy (telemetry (poll_api isMounted fetched s)) = true.
Proof.
  unfold poll_api. destruct (Polling.api_resolves fetched) as (data & ->).
  unfold pollTelemetry. destruct isMounted; simpl; [|now left].
  destruct (truthy data) eqn:T; simpl; auto.
Qed.

Section WithHost.
Context `{Host}.

Lemma dynamo_resolves (scanned : Dynamo.ScanOutcome) :
  exists items, Dynamo.getLatestTelemetry scanned = Fulfilled items.
Proof. apply Adapter.try_catch_fulfils. Qed.

Lemma poll_dynamo_step (isMounted : bool) (scanned : Dynamo.ScanOutcome)
    (now : Z) (s : State) :
  let s' := poll_dynamo isMounted scanned now s in
  (error s = None -> error s' = None)
  /\ (isConnected s = true -> isConnected s' = true)
  /\ (isMounted = true -> isConnected s' = true).
Proof.
  cbn zeta. unfold poll_dynamo. destruct (dynamo_resolves scanned) as (items & ->).
  unfold pollTelemetry_dynamo. destruct isMounted; simpl; [|now auto].
  destruct items; simpl; auto.
Qed.

Lemma run_dynamo_cons (c : bool * Dynamo.ScanOutcome * Z)
    (cycles : list (bool * Dynamo.ScanOutcome * Z)) (s : State) :
  run_dynamo (c :: cycles) s = run_dynamo cycles (poll_dynamo c.1.1 c.1.2 c.2 s).
Proof. reflexivity. Qed.

Lemma latest_nonempty (i : Dynamo.Item) (rest : list Dynamo.Item) :
  Dynamo.latest_of_each_type (i :: rest) <> [].
Proof.
  unfold Dynamo.latest_of_each_type.
  pose proof (Pipeline.sort_perm (i :: rest)) as P.
  destruct (Dynamo.sort (i :: rest)) as [|top l'].
  { apply Permutation_nil in P. discriminate P. }
  assert (Dynamo.group (top :: l') []
          = if complete [(Dynamo.type_of top, top)]
            then [(Dynamo.type_of top, top)]
            else Dynamo.group l' [(Dynamo.type_of top, top)]) as -> by reflexivity.
  destruct (complete [(Dynamo.type_of top, top)]); [discriminate|].
  destruct (Pipeline.group_extends l' [(Dynamo.type_of top, top)]) as (ext & ->).
  discriminate.
Qed.

End WithHost.

(** X17: after the cleanup nothing is published: a run of cycles that all
    settle once the hook is unmounted leaves the three state cells as they
    were, whatever the adapter did; the same holds of a cycle of the
    DynamoDB-backed hook. *)
Theorem unmounted_cycles_change_nothing `{Host}
    (cycles : list (bool * Api.FetchOutcome)) (s : State) :
  (Forall (fun c => c.1 = false) cycles -> run_api cycles s = s)
  /\ (forall settled now, pollTelemetry_dynamo false settled now s = s)
  /\ (forall settled, pollTelemetry false settled s = s).
Proof.
  split; [|split].
  - intros F. revert s. induction F as [|[m f] rest E _ IH]; intros s;
      [reflexivity|].
    simpl in E. subst m. rewrite run_api_cons, IH. unfold poll_api. simpl.
    now destruct (Api.getLatestTelemetry f).
  - now intros [items|e] now.
  - now intros [data|e].
Qed.

Lemma unmounted_cycles_change_nothing_witness :
  let s := {| telemetry := VObject [("battery"%string, num 60)];
              isConnected := true; error := None |} in
  run_api [(false, Fulfilled {| Api.status := 200; Api.statusText := "OK";
                                Api.json := Fulfilled (VObject
                                  [("telemetry"%string,
                                    VObject [("battery"%string, num 10)])]) |});
           (false, Rejected (ErrorObject "Failed to fetch"))] s = s.
Proof.
  cbn zeta.
  apply (proj1 (@unmounted_cycles_change_nothing Sample.host _ _)).
  repeat constructor.
Defined.

(** X18: last known good: over any run of cycles of the wired API hook a
    published telemetry is never cleared; if it was truthy before the run it
    is truthy after it, and from the initial state it is [null] or truthy. *)
Theorem telemetry_is_never_cleared (cycles : list (bool * Api.FetchOutcome))
    (s : State) :
  (truthy (telemetry s) = true -> truthy (telemetry (run_api cycles s)) = true)
  /\ (telemetry (run_api cycles initial) = null
      \/ truthy (telemetry (run_api cycles initial)) = true).
Proof.
  assert (forall cycles s, truthy (telemetry s) = true ->
                           truthy (telemetry (run_api cycles s)) = true) as K.
  { clear. induction cycles as [|[m f] rest IH]; intros s T; [exact T|].
    rewrite run_api_cons. cbn [fst snd]. apply IH.
    destruct (poll_api_telemetry m f s) as [E|E]; [now rewrite E | exact E]. }
  split; [apply K|].
  clear s. assert (forall s, telemetry s = null ->
                   telemetry (run_api cycles s) = null
                   \/ truthy (telemetry (run_api cycles s)) = true) as G.
  { induction cycles as [|[m f] rest IH]; intros s N; [now left|].
    rewrite run_api_cons. cbn [fst snd].
    destruct (poll_api_telemetry m f s) as [E|E].
    - apply IH. now rewrite E.
    - right. now apply K. }
  now apply G.
Qed.

Lemma telemetry_is_never_cleared_witness :
  let s := {| telemetry := VObject [("battery"%string, num 60)];
              isConnected := true; error := None |} in
  truthy (telemetry (run_api [(true, Rejected (ErrorObject "Failed to fetch"));
                              (true, Rejected NonError)] s)) = true.
Proof.
  cbn zeta.
  apply (proj1 (telemetry_is_never_cleared _ _)). reflexivity.
Defined.

(** X19: the DynamoDB-backed hook wired to the scan adapter never reaches
    its catch branch either: over any run of cycles no error is recorded,
    [isConnected] once true stays true, it is true once a cycle has settled
    while mounted, and a failed scan leaves the telemetry as it was. *)
Theorem dynamo_hook_never_disconnects `{Host} :
  (forall cycles, error (run_dynamo cycles initial) = None)
  /\ (forall cycles s, isConnected s = true ->
                       isConnected (run_dynamo cycles s) = true)
  /\ (forall cycles, existsb (fun c => c.1.1) cycles = true ->
                     isConnected (run_dynamo cycles initial) = true)
  /\ (forall e now s,
        poll_dynamo true (Dynamo.ScanFailed e) now s
        = {| telemetry := telemetry s; isConnected := true; error := None |}).
Proof.
  assert (forall cycles s, error s = None -> error (run_dynamo cycles s) = None) as E.
  { induction cycles as [|[[m f] n] rest IH]; intros s N; [exact N|].
    rewrite run_dynamo_cons. cbn [fst snd]. apply IH.
    exact (proj1 (poll_dynamo_step m f n s) N). }
  assert (forall cycles s, isConnected s = true ->
                           isConnected (run_dynamo cycles s) = true) as C.
  { induction cycles as [|[[m f] n] rest IH]; intros s N; [exact N|].
    rewrite run_dynamo_cons. cbn [fst snd]. apply IH.
    exact (proj1 (proj2 (poll_dynamo_step m f n s)) N). }
  split; [intros cycles; now apply E|]. split; [exact C|]. split; [|reflexivity].
  intros cycles. generalize initial.
  induction cycles as [|[[m f] n] rest IH]; intros s X; [discriminate X|].
  rewrite run_dynamo_cons. cbn [existsb fst snd] in *. destruct m.
  - apply C. exact (proj2 (proj2 (poll_dynamo_step true f n s)) eq_refl).
  - now apply IH.
Qed.

Lemma dynamo_hook_never_disconnects_witness :
  let down := Dynamo.ScanFailed (ErrorObject "Network error") in
  let s := run_dynamo (H := Sample.host)
             [(true, down, 1000); (true, down, 3000)] initial in
  isConnected s = true /\ error s = None.
Proof.
  cbn zeta.
  pose proof (@dynamo_hook_never_disconnects Sample.host) as (E & _ & C & _).
  split; [apply C; reflexivity | apply E].
Defined.

(** X20: every non-empty scan publishes a snapshot: a cycle of the
    DynamoDB-backed hook that settles while mounted on a scan with at least
    one record sets the telemetry to the object fused from the records that
    [getLatestTelemetry] resolves with for that scan; that list is not empty
    and the fused battery is a number in [[0,100]] or NaN. *)
Theorem non_empty_scan_publishes `{Host} (i : Dynamo.Item)
    (rest : list Dynamo.Item) (now : Z) (s : State) :
  exists kept,
    Dynamo.getLatestTelemetry (Dynamo.ScanResult (Some (i :: rest)))
    = Fulfilled kept
    /\ kept <> []
    /\ poll_dynamo true (Dynamo.ScanResult (Some (i :: rest))) now s
       = {| telemetry := Dynamo.transformMavlinkToTelemetry kept now;
            isConnected := true; error := None |}
    /\ exists n, Dynamo.get (Dynamo.transformMavlinkToTelemetry kept now) "battery"
                 = VScalar (JNum n) /\ percentage_or_NaN n.
Proof.
  exists (Dynamo.latest_of_each_type (i :: rest)).
  pose proof (latest_nonempty i rest) as N.
  split; [reflexivity|]. split; [exact N|]. split.
  - unfold poll_dynamo.
    change (Dynamo.getLatestTelemetry (Dynamo.ScanResult (Some (i :: rest))))
      with (Fulfilled (Dynamo.latest_of_each_type (i :: rest))).
    unfold pollTelemetry_dynamo. simpl negb. cbn iota.
    destruct (Dynamo.latest_of_each_type (i :: rest)); [contradiction|reflexivity].
  - rewrite Fusion.get_battery. eexists. split; [reflexivity|].
    apply FusionMore.clamp_percent_range.
Qed.

End PollingMore.

(** ** The formatted texts *)

Module FormatFacts.
Import Js Async Dynamo Notions Kept JsFacts Fusion Format FormatNotions.

Lemma Qfloor_between (x : Q) (z : Z) :
  (inject_Z z <= x)%Q -> (x < inject_Z (z + 1))%Q -> Qfloor x = z.
Proof.
  intros L U. pose proof (Qfloor_le x) as Fl. pose proof (Qlt_floor x) as Fu.
  assert (inject_Z z < inject_Z (Qfloor x + 1))%Q as A by lra.
  assert (inject_Z (Qfloor x) < inject_Z (z + 1))%Q as B by lra.
  rewrite <- Zlt_Qlt in A, B. lia.
Qed.

Lemma Qfloor_range (x : Q) (lo hi : Z) :
  (inject_Z lo <= x)%Q -> (x < inject_Z (hi + 1))%Q -> lo <= Qfloor x <= hi.
Proof.
  intros L U. pose proof (Qfloor_le x) as Fl. pose proof (Qlt_floor x) as Fu.
  assert (inject_Z lo < inject_Z (Qfloor x + 1))%Q as A by lra.
  assert (inject_Z (Qfloor x) < inject_Z (hi + 1))%Q as B by lra.
  rewrite <- Zlt_Qlt in A, B. lia.
Qed.

Lemma Qle_bool_false (x y : Q) : (y < x)%Q -> Qle_bool x y = false.
Proof.
  intros L. destruct (Qle_bool x y) eqn:E; [|reflexivity].
  apply Qle_bool_iff in E. lra.
Qed.

Lemma Qle_bool_true (x y : Q) : (x <= y)%Q -> Qle_bool x y = true.
Proof. apply Qle_bool_iff. Qed.

Lemma append_cons (x : ascii) (a b : string) :
  String x a +:+ b = String x (a +:+ b).
Proof. reflexivity. Qed.

Lemma append_assoc (a b c : string) : (a +:+ b) +:+ c = a +:+ (b +:+ c).
Proof.
  induction a as [|x a IH]; [reflexivity|]. rewrite !append_cons. now f_equal.
Qed.

Lemma length_append (a b : string) :
  String.length (a +:+ b) = (String.length a + String.length b)%nat.
Proof.
  induction a as [|x a IH]; [reflexivity|]. rewrite append_cons. simpl.
  now f_equal.
Qed.

(** The tenths 0..1000 print as a whole part, a point and one digit. *)
Lemma one_decimal_checked :
  forallb (fun k => String.eqb (one_decimal (Z.of_nat k))
                      (decimal (Z.of_nat k / 10) +:+ "."
                       +:+ decimal (Z.of_nat k mod 10)))
          (seq 0 1001) = true.
Proof. vm_compute. reflexivity. Qed.

Lemma one_decimal_shape (n : Z) :
  0 <= n <= 1000 ->
  one_decimal n = decimal (n / 10) +:+ "." +:+ decimal (n mod 10).
Proof.
  intros R. pose proof one_decimal_checked as C.
  rewrite forallb_forall in C. specialize (C (Z.to_nat n)).
  rewrite Z2Nat.id in C by lia. apply String.eqb_eq, C.
  apply in_seq. lia.
Qed.

Section WithHost.
Context `{Host}.

Lemma toFixed_small (q : Q) (f : nat) :
  (0 <= q)%Q -> (q < inject_Z (10 ^ 21))%Q ->
  toFixed (Fin q) f
  = let n := Qfloor (q * inject_Z (10 ^ Z.of_nat f) + (1 # 2)) in
    match f with
    | O => decimal n
    | _ =>
        let m := decimal n in
        let k := String.length m in
        let m := if (k <=? f)%nat then zeros (f + 1 - k) +:+ m else m in
        let k := String.length m in
        substring 0 (k - f) m +:+ "." +:+ substring (k - f) f m
    end.
Proof.
  intros L U. unfold toFixed.
  rewrite (Qle_bool_true 0 q L). cbn [negb].
  rewrite (Qle_bool_false _ _ U). reflexivity.
Qed.

Lemma formatBattery_percentage (q : Q) :
  (0 <= q <= 100)%Q -> percent_text (formatBattery (Fin q)).
Proof.
  intros [L U]. unfold formatBattery.
  rewrite toFixed_small; [|exact L|].
  2:{ apply Qle_lt_trans with (y := 100%Q); [exact U | reflexivity]. }
  cbn zeta. set (n := Qfloor _).
  assert (0 <= n <= 1000) as R.
  { subst n. apply Qfloor_range.
    - change (inject_Z (10 ^ Z.of_nat 1)) with 10%Q.
      change (inject_Z 0) with 0%Q. lra.
    - change (inject_Z (10 ^ Z.of_nat 1)) with 10%Q.
      change (inject_Z (1000 + 1)) with 1001%Q. lra. }
  change (percent_text (one_decimal n +:+ "%")).
  rewrite (one_decimal_shape n R).
  exists (n / 10), (n mod 10). split; [|split].
  - split; [apply Z.div_pos; lia | apply Z.div_le_upper_bound; lia].
  - pose proof (Z.mod_pos_bound n 10). lia.
  - now rewrite !append_assoc.
Qed.

End WithHost.

(** X21: the battery text of a fused object: whatever the batch,
    [formatBattery] of the fused battery is NaN% (shown in red) or a whole
    part between 0 and 100, a point, one digit and the percent sign. *)
Theorem fused_battery_text `{Host} (items : list Item) (now : Z) :
  exists n,
    get (transformMavlinkToTelemetry items now) "battery" = VScalar (JNum n)
    /\ ((n = NaN /\ formatBattery n = "NaN%"%string
         /\ getBatteryColor n = "text-red-400"%string)
        \/ percent_text (formatBattery n)).
Proof.
  rewrite get_battery. eexists. split; [reflexivity|].
  pose proof (FusionMore.clamp_percent_range
                (ToNumber (batteryPercent (data_of_type items "battery")))) as P.
  destruct (clamp_percent _) as [| |q|]; try contradiction.
  - left. repeat split.
  - right. now apply formatBattery_percentage.
Qed.

(** X22: the units of [formatDistance]: a distance from 0 to below 1000
    is printed in metres, rounded to the nearest integer (halves up), so from
    999.5 on the text is 1000 m and not 1.00 km; NaN is printed as NaN km. *)
Theorem distance_units `{Host} (m : Q) :
  ((0 <= m)%Q -> (m < 1000)%Q ->
   formatDistance (Fin m) = decimal (Qfloor (m + (1 # 2))) +:+ " m"
   /\ 0 <= Qfloor (m + (1 # 2)) <= 1000)
  /\ ((9995 # 10 <= m)%Q -> (m < 1000)%Q -> formatDistance (Fin m) = "1000 m"%string)
  /\ formatDistance NaN = "NaN km"%string.
Proof.
  assert ((0 <= m)%Q -> (m < 1000)%Q ->
          formatDistance (Fin m) = decimal (Qfloor (m + (1 # 2))) +:+ " m") as Main.
  { intros L U. unfold formatDistance.
    assert (num_ltb (Fin m) (Fin 1000) = true) as -> by now apply num_ltb_fin.
    rewrite toFixed_small; [|exact L|].
    2:{ apply Qlt_trans with (y := 1000%Q); [exact U | reflexivity]. }
    cbn zeta. cbn iota.
    assert (m * inject_Z (10 ^ Z.of_nat 0) + (1 # 2) == m + (1 # 2))%Q as ->
      by (change (inject_Z (10 ^ Z.of_nat 0)) with 1%Q; ring).
    reflexivity. }
  split; [|split; [|reflexivity]].
  - intros L U. split; [now apply Main|].
    apply Qfloor_range; [change (inject_Z 0) with 0%Q; lra|].
    change (inject_Z (1000 + 1)) with 1001%Q. lra.
  - intros L U. rewrite Main; [|lra|exact U].
    rewrite (Qfloor_between _ 1000); [reflexivity| |].
    + change (inject_Z 1000) with 1000%Q. lra.
    + change (inject_Z (1000 + 1)) with 1001%Q. lra.
Qed.

Lemma distance_units_witness :
  formatDistance (H := Sample.host) (Fin (9996 # 10)) = "1000 m"%string
  /\ formatDistance (H := Sample.host) (Fin (124 # 10)) = "12 m"%string.
Proof.
  split.
  - apply (proj1 (proj2 (@distance_units Sample.host (9996 # 10))));
      vm_compute; (reflexivity || discriminate).
  - apply (proj1 (proj1 (@distance_units Sample.host (124 # 10))
                    ltac:(vm_compute; discriminate) ltac:(vm_compute; reflexivity))).
Defined.

(** X23: the relative time of [formatTimestamp]: a timestamp less than a
    minute old, or in the future, reads Just now; from one minute to below one
    hour it reads <k>m ago with [k] the whole minutes elapsed, between 1 and
    59; from one hour on the text is the locale's clock time. *)
Theorem relative_time `{Host} `{Locale} (now : Z) (ts : Q) :
  let age := (inject_Z now - ts)%Q in
  ((age < 60000)%Q -> formatTimestamp now (Fin ts) = "Just now"%string)
  /\ ((60000 <= age)%Q -> (age < 3600000)%Q ->
      let k := Qfloor (age / 60000) in
      1 <= k <= 59
      /\ formatTimestamp now (Fin ts) = decimal k +:+ "m ago")
  /\ ((3600000 <= age)%Q ->
      formatTimestamp now (Fin ts) = toLocaleTimeString_en_US (Fin ts)).
Proof.
  cbn zeta. unfold formatTimestamp. cbn [sub]. split; [|split].
  - intros A. now rewrite (proj2 (num_ltb_fin _ _) A).
  - intros L U.
    rewrite (proj2 (num_ltb_fin_false _ _) L), (proj2 (num_ltb_fin _ _) U).
    assert (1 <= Qfloor ((inject_Z now - ts) / 60000) <= 59) as R.
    { apply Qfloor_range.
      - change (inject_Z 1) with 1%Q. apply Qle_shift_div_l; [reflexivity|]. lra.
      - change (inject_Z (59 + 1)) with 60%Q.
        apply Qlt_shift_div_r; [reflexivity|]. lra. }
    split; [exact R|].
    cbn [div floor]. change (Qeq_bool 60000 0) with false. cbn iota.
    unfold floor. rewrite FusionMore.NumberToString_integer; [reflexivity|lia].
  - intros L.
    assert (60000 <= inject_Z now - ts)%Q as L' by lra.
    now rewrite (proj2 (num_ltb_fin_false _ _) L'),
      (proj2 (num_ltb_fin_false _ _) L).
Qed.

Lemma relative_time_witness :
  formatTimestamp (H := Sample.host) (H0 := Sample3.locale) 1000000 (Fin 700000)
  = "5m ago"%string
  /\ formatTimestamp (H := Sample.host) (H0 := Sample3.locale) 1000000 (Fin 2000000)
     = "Just now"%string.
Proof.
  split.
  - apply (proj2 (proj1 (proj2 (@relative_time Sample.host Sample3.locale
                                   1000000 700000))
                    ltac:(vm_compute; discriminate)
                    ltac:(vm_compute; reflexivity))).
  - apply (proj1 (@relative_time Sample.host Sample3.locale 1000000 2000000)).
    vm_compute. reflexivity.
Defined.

(** *** Flight mode names *)

Lemma toLowerCase_length (s : string) :
  String.length (toLowerCase s) = String.length s.
Proof. induction s as [|c s IH]; simpl; [reflexivity | now f_equal]. Qed.

Lemma capitalised_length (w : string) :
  String.length (capitalised w) = String.length w.
Proof. destruct w; simpl; [reflexivity | now rewrite toLowerCase_length]. Qed.

Lemma lower_not_underscore (c : ascii) :
  Ascii.eqb c "_" = false -> Ascii.eqb (lower c) "_" = false.
Proof.
  intros N. unfold lower.
  destruct ((65 <=? nat_of_ascii c)%nat && (nat_of_ascii c <=? 90)%nat) eqn:E;
    [|exact N].
  apply andb_true_iff in E as [L U]. apply Nat.leb_le in L, U.
  apply Ascii.eqb_neq. intros X. apply (f_equal nat_of_ascii) in X.
  rewrite nat_ascii_embedding in X by lia.
  change (nat_of_ascii "_") with 95%nat in X. lia.
Qed.

(** Total length of the words of a list joined by single spaces. *)
Lemma join_space_cons (w : string) (ws : list string) :
  join_space (w :: ws)
  = match ws with [] => w | _ => w +:+ " " +:+ join_space ws end.
Proof. reflexivity. Qed.

Lemma split_underscore_cons (s : string) :
  exists w ws, split_underscore s = w :: ws.
Proof.
  induction s as [|c s (w & ws & IH)]; simpl; [eauto|].
  destruct (Ascii.eqb c "_"); [eauto|]. rewrite IH. eauto.
Qed.

Lemma join_capitalised_length (w : string) (ws : list string) (c : ascii) :
  String.length (join_space (map capitalised (String c w :: ws)))
  = S (String.length (join_space (map capitalised (w :: ws)))).
Proof.
  cbn [map]. rewrite !join_space_cons. destruct (map capitalised ws).
  - simpl. now rewrite toLowerCase_length, capitalised_length.
  - rewrite !length_append. simpl.
    now rewrite toLowerCase_length, capitalised_length.
Qed.

Lemma formatFlightMode_length (s : string) :
  String.length (formatFlightMode s) = String.length s.
Proof.
  unfold formatFlightMode. induction s as [|c s IH]; [reflexivity|].
  cbn [split_underscore]. destruct (split_underscore_cons s) as (w & ws & E).
  rewrite E in *. destruct (Ascii.eqb c "_").
  - cbn [map capitalised] in *.
    change (join_space (EmptyString :: capitalised w :: map capitalised ws))
      with (EmptyString +:+ " " +:+ join_space (capitalised w :: map capitalised ws)).
    rewrite !length_append, IH. reflexivity.
  - rewrite join_capitalised_length. cbn [String.length]. now f_equal.
Qed.

Lemma mentions_append (c : ascii) (a b : string) :
  mentions c (a +:+ b) = mentions c a || mentions c b.
Proof.
  induction a as [|x a IH]; [reflexivity|]. rewrite append_cons. simpl.
  now rewrite IH, orb_assoc.
Qed.

Lemma toLowerCase_no_underscore (s : string) :
  mentions "_" s = false -> mentions "_" (toLowerCase s) = false.
Proof.
  induction s as [|c s IH]; cbn [mentions toLowerCase]; [reflexivity|].
  intros M. apply orb_false_iff in M as [M1 M2]. rewrite (IH M2), orb_false_r.
  rewrite Ascii.eqb_sym in M1. rewrite Ascii.eqb_sym.
  now apply lower_not_underscore.
Qed.

(** No word of the split holds an underscore. *)
Lemma split_underscore_clean (s : string) :
  Forall (fun w => mentions "_" w = false) (split_underscore s).
Proof.
  induction s as [|c s IH]; cbn [split_underscore]; [repeat constructor|].
  destruct (Ascii.eqb c "_") eqn:E; [now constructor|].
  destruct (split_underscore s) as [|w ws]; [repeat constructor|].
  - cbn [mentions]. now rewrite Ascii.eqb_sym, E.
  - apply Forall_cons_1 in IH as [Hw Hws]. constructor; [|exact Hws].
    cbn [mentions]. now rewrite Ascii.eqb_sym, E, Hw.
Qed.

Lemma capitalised_clean (w : string) :
  mentions "_" w = false -> mentions "_" (capitalised w) = false.
Proof.
  destruct w as [|c w]; cbn [mentions capitalised]; [reflexivity|]. intros M.
  apply orb_false_iff in M as [M1 M2].
  now rewrite M1, (toLowerCase_no_underscore w M2).
Qed.

Lemma join_space_clean (ws : list string) :
  Forall (fun w => mentions "_" w = false) ws ->
  mentions "_" (join_space ws) = false.
Proof.
  induction 1 as [|w ws Hw _ IH]; [reflexivity|].
  rewrite join_space_cons. destruct ws; [exact Hw|].
  rewrite !mentions_append, Hw, IH. reflexivity.
Qed.

Lemma join_space_head (c : ascii) (w : string) (ws : list string) :
  join_space (String c w :: ws) = String c (join_space (w :: ws)).
Proof. rewrite !join_space_cons. now destruct ws. Qed.

Lemma join_space_empty (w : string) (ws : list string) :
  join_space (EmptyString :: w :: ws) = String " " (join_space (w :: ws)).
Proof. reflexivity. Qed.

(** The words of a name, joined, are the name read one character at a
    time, whether the first word is capitalised or in lower case. *)
Lemma join_is_letters (s : string) :
  forall w ws, split_underscore s = w :: ws ->
    join_space (map capitalised (w :: ws)) = letters true s
    /\ join_space (toLowerCase w :: map capitalised ws) = letters false s.
Proof.
  induction s as [|c rest IH]; intros w ws E.
  - injection E as <- <-. split; reflexivity.
  - cbn [split_underscore letters] in *.
    destruct (split_underscore_cons rest) as (w' & ws' & R).
    destruct (IH w' ws' R) as [IH1 IH2]. rewrite R in E.
    destruct (Ascii.eqb c "_").
    + injection E as <- <-. cbn [map capitalised toLowerCase].
      cbn [map] in IH1. rewrite !join_space_empty, IH1. now split.
    + injection E as <- <-. cbn [map capitalised toLowerCase].
      rewrite !join_space_head, IH2. now split.
Qed.

Lemma formatFlightMode_letters (mode : string) :
  formatFlightMode mode = letters true mode.
Proof.
  unfold formatFlightMode.
  destruct (split_underscore_cons mode) as (w & ws & E). rewrite E.
  exact (proj1 (join_is_letters mode w ws E)).
Qed.

Lemma lower_upper_case (c : ascii) :
  (upper_case c -> nat_of_ascii (lower c) = (nat_of_ascii c + 32)%nat)
  /\ (~ upper_case c -> lower c = c).
Proof.
  unfold upper_case, lower. split.
  - intros [L U]. apply Nat.leb_le in L as L', U as U'. rewrite L', U'.
    cbn [andb]. apply nat_ascii_embedding. lia.
  - intros N.
    destruct (65 <=? nat_of_ascii c)%nat eqn:L; [|reflexivity].
    destruct (nat_of_ascii c <=? 90)%nat eqn:U; [|reflexivity].
    apply Nat.leb_le in L, U. exfalso. apply N. now split.
Qed.

Lemma letters_get (s : string) :
  forall start i c, String.get i s = Some c ->
    exists r, String.get i (letters start s) = Some r
      /\ (c = "_"%char -> r = " "%char)
      /\ (c <> "_"%char ->
          match i with O => start = true | S j => String.get j s = Some "_"%char end ->
          r = c)
      /\ (c <> "_"%char ->
          match i with O => start = false | S j => String.get j s <> Some "_"%char end ->
          r = lower c).
Proof.
  induction s as [|h rest IH]; intros start i c G; [discriminate G|].
  destruct i as [|j].
  - injection G as ->. cbn [letters].
    destruct (Ascii.eqb_spec c "_") as [->|N].
    + exists " "%char. split; [reflexivity|]. split; [reflexivity|].
      split; intros X; now destruct X.
    + eexists. split; [reflexivity|]. split; [intros X; contradiction|].
      split; intros _ ->; reflexivity.
  - cbn [String.get] in G. cbn [letters].
    assert (exists start' x, (if Ascii.eqb h "_"
                              then String " " (letters true rest)
                              else String (if start then h else lower h)
                                          (letters false rest))
                             = String x (letters start' rest)
                             /\ (start' = true <-> h = "_"%char)) as (start' & x & -> & S').
    { destruct (Ascii.eqb_spec h "_") as [->|N]; do 2 eexists;
        (split; [reflexivity|]); split; congruence. }
    destruct (IH start' j c G) as (r & Gr & U & A & B).
    exists r. cbn [String.get]. split; [exact Gr|]. split; [exact U|].
    split; intros N P; [apply (A N)|apply (B N)]; destruct j as [|k];
      cbn [String.get] in P; try exact P.
    + apply S'. congruence.
    + destruct start'; [|reflexivity]. exfalso. apply P. f_equal.
      now apply S'.
Qed.

(** X24: [formatFlightMode] on an ASCII name keeps the length of the name
    and leaves no underscore in it, and it works character by character:
    an underscore becomes a space, the first character of a word (the first
    of the name, or one after an underscore) is kept as it is, and every
    other character is kept unless it is an upper-case letter, which becomes
    the lower-case letter 32 codes further. *)
Theorem flight_mode_text (mode : string) :
  ascii_only mode ->
  String.length (formatFlightMode mode) = String.length mode
  /\ mentions "_" (formatFlightMode mode) = false
  /\ (forall i c, String.get i mode = Some c ->
        exists r, String.get i (formatFlightMode mode) = Some r
          /\ (c = "_"%char -> r = " "%char)
          /\ (c <> "_"%char -> starts_word i mode -> r = c)
          /\ (c <> "_"%char -> ~ starts_word i mode ->
              (upper_case c -> nat_of_ascii r = (nat_of_ascii c + 32)%nat)
              /\ (~ upper_case c -> r = c))).
Proof.
  intros _. split; [apply formatFlightMode_length|]. split.
  - unfold formatFlightMode. apply join_space_clean.
    apply Forall_map. eapply Forall_impl; [apply split_underscore_clean|].
    intros w. apply capitalised_clean.
  - intros i c G. rewrite formatFlightMode_letters.
    destruct (letters_get mode true i c G) as (r & Gr & U & A & B).
    exists r. split; [exact Gr|]. split; [exact U|]. split.
    + intros N W. apply (A N). destruct i; [reflexivity|exact W].
    + intros N W.
      assert (r = lower c) as ->.
      { apply (B N). destruct i as [|j]; [|exact W]. exfalso. now apply W. }
      apply lower_upper_case.
Qed.

Lemma flight_mode_text_witness :
  String.length (formatFlightMode "ALT_HOLD") = 8%nat
  /\ mentions "_" (formatFlightMode "ALT_HOLD") = false
  /\ String.get 0 (formatFlightMode "ALT_HOLD") = Some "A"%char
  /\ String.get 1 (formatFlightMode "ALT_HOLD") = Some "l"%char
  /\ String.get 3 (formatFlightMode "ALT_HOLD") = Some " "%char
  /\ String.get 4 (formatFlightMode "ALT_HOLD") = Some "H"%char.
Proof.
  destruct (flight_mode_text "ALT_HOLD") as (L & M & _).
  - repeat constructor.
  - split; [exact L|]. split; [exact M|]. repeat split.
Defined.

End FormatFacts.

(** ** The listener registry, the reconnection and the alert list *)

Module EventFacts.
Import Js Async Events.

Lemma set_add_elem (cb : nat) (s : list nat) : cb ∈ set_add cb s.
Proof.
  unfold set_add. case_bool_decide; [assumption|]. set_solver.
Qed.

Lemma set_add_NoDup (cb : nat) (s : list nat) : NoDup s -> NoDup (set_add cb s).
Proof.
  intros N. unfold set_add. case_bool_decide; [assumption|].
  apply NoDup_app. repeat split; [assumption| |apply NoDup_singleton].
  intros x I J. apply list_elem_of_singleton in J. now subst.
Qed.

Lemma set_add_again (cb : nat) (s : list nat) :
  set_add cb (set_add cb s) = set_add cb s.
Proof.
  unfold set_add at 1. case_bool_decide as E; [reflexivity|].
  exfalso. apply E, set_add_elem.
Qed.

Lemma set_delete_gone (cb : nat) (s : list nat) : cb ∉ set_delete cb s.
Proof.
  unfold set_delete. intros I. apply list_elem_of_In, filter_In in I as [_ I].
  now rewrite Nat.eqb_refl in I.
Qed.

Lemma set_delete_absent (cb : nat) (s : list nat) :
  cb ∉ s -> set_delete cb s = s.
Proof.
  unfold set_delete. induction s as [|x s IH]; intros N; [reflexivity|].
  simpl. destruct (Nat.eqb_spec x cb) as [->|_].
  - exfalso. apply N. left.
  - simpl. f_equal. apply IH. intros I. apply N. now right.
Qed.

Lemma set_delete_add (cb : nat) (s : list nat) :
  cb ∉ s -> set_delete cb (set_add cb s) = s.
Proof.
  intros N. unfold set_add. case_bool_decide; [contradiction|].
  unfold set_delete. rewrite List.filter_app. simpl. rewrite Nat.eqb_refl. simpl.
  rewrite app_nil_r. now apply set_delete_absent.
Qed.

Lemma listeners_of_on (event : string) (cb : nat)
    (listeners : gmap string (list nat)) :
  listeners_of (on event cb listeners) event
  = set_add cb (listeners_of listeners event).
Proof.
  unfold on, listeners_of. destruct (listeners !! event) as [s|] eqn:E.
  - rewrite E. now rewrite lookup_insert_eq.
  - rewrite lookup_insert_eq. now rewrite lookup_insert_eq.
Qed.

Lemma listeners_of_off (event : string) (cb : nat)
    (listeners : gmap string (list nat)) :
  listeners_of (off event cb listeners) event
  = set_delete cb (listeners_of listeners event).
Proof.
  unfold off, listeners_of. destruct (listeners !! event) as [s|] eqn:E.
  - now rewrite lookup_insert_eq.
  - now rewrite E.
Qed.

Lemma listeners_of_other (event other : string) (cb : nat)
    (listeners : gmap string (list nat)) :
  event <> other ->
  listeners_of (on event cb listeners) other = listeners_of listeners other
  /\ listeners_of (off event cb listeners) other = listeners_of listeners other.
Proof.
  intros N. unfold on, off, listeners_of. split.
  - destruct (listeners !! event) as [s|] eqn:E.
    + rewrite E. now rewrite lookup_insert_ne.
    + rewrite lookup_insert_eq. now rewrite !lookup_insert_ne.
  - destruct (listeners !! event) as [s|] eqn:E; [|reflexivity].
    now rewrite lookup_insert_ne.
Qed.

Lemma forEach_calls_all (behaviour : nat -> Value -> Completion unit)
    (data : Value) (s : list nat) :
  forEach behaviour data s = Fulfilled s.
Proof.
  induction s as [|cb s IH]; [reflexivity|]. cbn [forEach]. unfold invoke.
  destruct (behaviour cb data); simpl; now rewrite IH.
Qed.

(** X25: the listener registry behaves as a set per event: after [on]
    the callback is registered, registering it again changes nothing and
    never makes it listed twice; after [off] it is not registered; [off]
    undoes the [on] of a callback that was not registered before; and [on]
    and [off] leave the listeners of every other event alone. *)
Theorem registry_is_a_set_per_event (event : string) (cb : nat)
    (listeners : gmap string (list nat)) :
  (cb ∈ listeners_of (on event cb listeners) event)
  /\ listeners_of (on event cb (on event cb listeners)) event
     = listeners_of (on event cb listeners) event
  /\ (NoDup (listeners_of listeners event) ->
      NoDup (listeners_of (on event cb listeners) event))
  /\ (cb ∉ listeners_of (off event cb listeners) event)
  /\ (cb ∉ listeners_of listeners event ->
      listeners_of (off event cb (on event cb listeners)) event
      = listeners_of listeners event)
  /\ (forall other, event <> other ->
        listeners_of (on event cb listeners) other = listeners_of listeners other
        /\ listeners_of (off event cb listeners) other
           = listeners_of listeners other).
Proof.
  rewrite !listeners_of_off, !listeners_of_on.
  split; [apply set_add_elem|]. split; [apply set_add_again|].
  split; [apply set_add_NoDup|]. split; [apply set_delete_gone|].
  split; [apply set_delete_add|].
  intros other. apply listeners_of_other.
Qed.

Lemma registry_is_a_set_per_event_witness :
  listeners_of (on "telemetry_update" 2 (on "telemetry_update" 1 ∅))
               "telemetry_update" = [1; 2]%nat
  /\ listeners_of (off "telemetry_update" 2
                     (on "telemetry_update" 2 (on "telemetry_update" 1 ∅)))
                  "telemetry_update" = [1]%nat
  /\ listeners_of (on "telemetry_update" 2 (on "telemetry_update" 1 ∅))
                  "system_status" = [].
Proof.
  destruct (registry_is_a_set_per_event "telemetry_update" 2
              (on "telemetry_update" 1 ∅)) as (_ & _ & _ & _ & R & O).
  split; [reflexivity|]. split.
  - apply R. vm_compute. intros X. apply list_elem_of_In in X.
    destruct X as [X|[]]. discriminate X.
  - rewrite (proj1 (O "system_status"%string ltac:(discriminate))). reflexivity.
Defined.

(** X26: [emit] calls every listener of the event, in the order of
    registration, also when listeners throw, and never throws itself; an
    event nobody listens to calls nothing. *)
Theorem emit_reaches_every_listener
    (behaviour : nat -> Value -> Completion unit) (event : string) (data : Value)
    (listeners : gmap string (list nat)) :
  emit behaviour event data listeners = Fulfilled (listeners_of listeners event).
Proof.
  unfold emit, listeners_of. destruct (listeners !! event); [|reflexivity].
  apply forEach_calls_all.
Qed.

Lemma repeat_closed_at_limit (k : nat) (delays : list Z) :
  run (repeat Closed k) (5, delays) = (5, delays).
Proof.
  induction k as [|k IH]; [reflexivity|]. cbn [repeat]. unfold run in *.
  cbn [foldl]. unfold handle at 2. cbn [fst snd attemptReconnect].
  change (5 >=? maxReconnectAttempts) with true. cbn iota. cbn [fst snd].
  rewrite app_nil_r. exact IH.
Qed.

Lemma handle_counter (st : Z * list Z) (ev : SocketEvent) :
  0 <= st.1 <= 5 -> 0 <= (handle st ev).1 <= 5.
Proof.
  intros R. destruct ev; [simpl; lia|]. unfold handle, attemptReconnect.
  unfold maxReconnectAttempts. destruct (st.1 >=? 5) eqn:E; simpl; lia.
Qed.

(** X27: the reconnection backs off exponentially and gives up: the counter
    stays between 0 and 5 over any run of opens and closes; [n] closes in a
    row after a fresh start schedule the first [n] of the delays 1000, 2000,
    4000, 8000, 16000 and nothing after the fifth; and after an open the next
    close schedules 1000 again. *)
Theorem reconnect_backs_off_and_gives_up :
  (forall events st, 0 <= st.1 <= 5 -> 0 <= (run events st).1 <= 5)
  /\ (forall n, (run (repeat Closed n) (0, [])).2
                = firstn n [1000; 2000; 4000; 8000; 16000])
  /\ (forall st, (handle (handle st Opened) Closed).2 = st.2 ++ [1000]).
Proof.
  split; [|split].
  - intros events. induction events as [|ev rest IH]; intros st R; [exact R|].
    apply IH. now apply handle_counter.
  - intros n. do 5 (destruct n as [|n]; [reflexivity|]).
    change (S (S (S (S (S n))))) with (5 + n)%nat.
    rewrite repeat_app. unfold run. rewrite foldl_app.
    change (foldl handle (0, []) (repeat Closed 5))
      with ((5, [1000; 2000; 4000; 8000; 16000]) : Z * list Z).
    fold (run (repeat Closed n) (5, [1000; 2000; 4000; 8000; 16000])).
    rewrite repeat_closed_at_limit. cbn [snd]. simpl. now destruct n.
  - intros [n delays]. reflexivity.
Qed.

Lemma reconnect_backs_off_and_gives_up_witness :
  run [Closed; Closed; Opened; Closed; Closed; Closed; Closed; Closed; Closed]
      (0, [])
  = (5, [1000; 2000; 1000; 2000; 4000; 8000; 16000])
  /\ 0 <= (run [Closed; Closed; Opened; Closed] (0, [])).1 <= 5.
Proof.
  split; [reflexivity|].
  apply (proj1 reconnect_backs_off_and_gives_up). simpl. lia.
Defined.

End EventFacts.

Module AlertFacts.
Import Js Alerts.

Lemma resolved_ids (data : Alert) (prev : list Alert) :
  map alertId (handleAlertResolved data prev) = map alertId prev.
Proof.
  unfold handleAlertResolved. rewrite map_map. apply map_ext.
  intros a. now destruct (String.eqb (alertId a) (alertId data)).
Qed.

Lemma filter_ids_NoDup (d : string) (prev : list Alert) :
  NoDup (map alertId prev) ->
  NoDup (map alertId (List.filter (fun a => negb (String.eqb (alertId a) d)) prev))
  /\ d ∉ map alertId (List.filter (fun a => negb (String.eqb (alertId a) d)) prev).
Proof.
  induction prev as [|a rest IH]; intros N; simpl.
  - split; [constructor | apply not_elem_of_nil].
  - apply NoDup_cons in N as [Na N]. destruct (IH N) as [IH1 IH2].
    destruct (String.eqb_spec (alertId a) d) as [E|E]; simpl; [now split|].
    split.
    + apply NoDup_cons. split; [|exact IH1].
      intros I. apply Na. apply list_elem_of_In in I. apply list_elem_of_In.
      apply in_map_iff in I as (x & Ex & Ix). apply filter_In in Ix as [Ix _].
      apply in_map_iff. eauto.
    + intros I. apply elem_of_cons in I as [I|I]; [congruence|contradiction].
Qed.

Lemma triggered_NoDup (data : Alert) (prev : list Alert) :
  NoDup (map alertId prev) -> NoDup (map alertId (handleAlertTriggered data prev)).
Proof.
  intros N. unfold handleAlertTriggered. cbn [map].
  destruct (filter_ids_NoDup (alertId data) prev N) as [A B].
  apply NoDup_cons. now split.
Qed.

Lemma apply_event_NoDup (alerts : list Alert) (ev : AlertEvent) :
  NoDup (map alertId alerts) -> NoDup (map alertId (apply_event alerts ev)).
Proof.
  intros N. destruct ev as [data|data]; simpl.
  - now apply triggered_NoDup.
  - now rewrite resolved_ids.
Qed.

(** X28: the alert list never holds two alerts with the same id: whatever
    alerts are triggered and resolved, in whatever order, the ids of the list
    stay distinct; a triggered alert goes to the front and replaces the entry
    that had its id. *)
Theorem alert_ids_stay_distinct (events : list AlertEvent) (data : Alert)
    (prev : list Alert) :
  NoDup (map alertId (run events))
  /\ (exists rest, handleAlertTriggered data prev = data :: rest
                   /\ (forall a, In a rest <->
                                 In a prev /\ alertId a <> alertId data)).
Proof.
  split.
  - unfold run.
    assert (forall alerts, NoDup (map alertId alerts) ->
                           NoDup (map alertId (foldl apply_event alerts events))) as G.
    { induction events as [|ev rest IH]; intros alerts N; [exact N|].
      apply IH. now apply apply_event_NoDup. }
    apply G. constructor.
  - eexists. split; [reflexivity|]. intros a. rewrite filter_In.
    rewrite negb_true_iff, String.eqb_neq. reflexivity.
Qed.

(** X29: resolving an alert never adds, drops or reorders alerts: the ids
    of the list are the same before and after; an entry with the id of the
    resolved alert becomes resolved with its [resolvedAt] and keeps its id,
    droneId, type, severity, timestamp and message; every other entry is
    untouched, and an id that is not in the list changes nothing. *)
Theorem resolving_keeps_the_list (data : Alert) (prev : list Alert) :
  map alertId (handleAlertResolved data prev) = map alertId prev
  /\ (forall i a, prev !! i = Some a ->
        exists a', handleAlertResolved data prev !! i = Some a'
          /\ (alertId a <> alertId data -> a' = a)
          /\ (alertId a = alertId data ->
              alertId a' = alertId a /\ droneId a' = droneId a
              /\ type a' = type a /\ severity a' = severity a
              /\ timestamp a' = timestamp a /\ message a' = message a
              /\ resolved a' = true /\ resolvedAt a' = resolvedAt data))
  /\ (alertId data ∉ map alertId prev -> handleAlertResolved data prev = prev).
Proof.
  split; [apply resolved_ids|]. split.
  - intros i a L. unfold handleAlertResolved.
    rewrite list_lookup_fmap, L. eexists. split; [reflexivity|].
    destruct (String.eqb_spec (alertId a) (alertId data)) as [E|E].
    + split; [intros N; contradiction|]. intros _. unfold resolve.
      repeat split.
    + split; [reflexivity|]. intros E'. contradiction.
  - intros N. unfold handleAlertResolved.
    induction prev as [|a rest IH]; [reflexivity|]. cbn [map] in *.
    apply not_elem_of_cons in N as [Na N].
    destruct (String.eqb_spec (alertId a) (alertId data)) as [E|_];
      [congruence|]. f_equal. now apply IH.
Qed.

End AlertFacts.

Module CommandFacts.
Import Js Async Command.

(** X30: unlike [getLatestTelemetry], [sendCommand] and
    [getTelemetryHistory] hand every failure to their caller: a transport
    failure rejects with the same error, a response outside 2xx rejects with
    the message HTTP error! status: <status>, a 2xx response settles as the
    parsing of its body does; and on every outcome that makes them reject,
    the telemetry adapter resolves with [null]. *)
Theorem command_failures_reach_the_caller (fetched : Api.FetchOutcome) :
  getTelemetryHistory fetched = sendCommand fetched
  /\ (forall e, fetched = Rejected e -> sendCommand fetched = Rejected e)
  /\ (forall r, fetched = Fulfilled r -> Api.ok r = false ->
        sendCommand fetched
        = Rejected (ErrorObject ("HTTP error! status: " +:+ decimal (Api.status r))))
  /\ (forall r, fetched = Fulfilled r -> Api.ok r = true ->
        sendCommand fetched = Api.json r)
  /\ (forall e, sendCommand fetched = Rejected e ->
        Api.getLatestTelemetry fetched = Fulfilled null).
Proof.
  unfold sendCommand, getTelemetryHistory, request, Api.getLatestTelemetry,
    Api.check_ok.
  split; [reflexivity|]. split; [now intros e ->|]. split; [|split].
  - intros r -> O. simpl. now rewrite O.
  - intros r -> O. simpl. rewrite O. simpl. now destruct (Api.json r).
  - intros e. destruct fetched as [r|e']; simpl; [|reflexivity].
    destruct (Api.ok r); simpl; [|reflexivity].
    destruct (Api.json r); simpl; [discriminate|reflexivity].
Qed.

Lemma command_failures_reach_the_caller_witness :
  let r := {| Api.status := 503; Api.statusText := "Service Unavailable";
              Api.json := Fulfilled null |} in
  sendCommand (Fulfilled r)
  = Rejected (ErrorObject "HTTP error! status: 503")
  /\ Api.getLatestTelemetry (Fulfilled r) = Fulfilled null.
Proof.
  cbn zeta.
  destruct (command_failures_reach_the_caller
              (Fulfilled {| Api.status := 503;
                            Api.statusText := "Service Unavailable";
                            Api.json := Fulfilled null |}))
    as (_ & _ & S & _ & G).
  split.
  - apply (S _ eq_refl). reflexivity.
  - eapply G. apply (S _ eq_refl). reflexivity.
Defined.

End CommandFacts.
